(** * The Ax service generator of optimas: trial lifecycle bridge

    A shallow embedding of [optimas/generators/ax/service/base.py]
    ([AxServiceGenerator]) and the properties of its ask/tell bridge,
    search-space translation, best-value selection and serialization guard.

    The Ax client is an external collaborator.  Its methods are taken as an
    interface ([AxClientOps]): each one is a function from the client state
    to the new client state and either a value or a raised exception.  The
    attributes the generator reads or mutates directly (the generation
    strategy and its current step, the optimization config) are concrete
    records. *)

From Stdlib Require Import ZArith QArith String Ascii List Bool Lia.
From Stdlib Require DecimalString DecimalZ DecimalPos.
From stdpp Require Import base option list gmap strings.

Open Scope Z_scope.
Open Scope string_scope.

(** ** Python runtime: exceptions and stateful, fallible computations *)

Module Py.

(** The exception classes that the module raises, catches or can meet. *)
Inductive ExnClass :=
| AttributeError
| TypeError
| KeyError
| IndexError
| ValueError
| UnboundLocalError
| NotImplementedError
| RuntimeError.

Definition ExnClass_eqb (a b : ExnClass) : bool :=
  match a, b with
  | AttributeError, AttributeError
  | TypeError, TypeError
  | KeyError, KeyError
  | IndexError, IndexError
  | ValueError, ValueError
  | UnboundLocalError, UnboundLocalError
  | NotImplementedError, NotImplementedError
  | RuntimeError, RuntimeError => true
  | _, _ => false
  end.

Record Exn := mkExn { exn_class : ExnClass; exn_msg : string }.

(** The outcome of a statement or call: a value, or a raised exception. *)
Inductive result (A : Type) :=
| Ok (a : A)
| Raise (e : Exn).
Arguments Ok {A} a.
Arguments Raise {A} e.

Definition is_ok {A} (r : result A) : bool :=
  match r with Ok _ => true | Raise _ => false end.

(** A computation over the mutable state [S]: the state it leaves is
    returned also when it raises, as in Python. *)
Definition M (S A : Type) : Type := S -> S * result A.

Definition ret {S A} (a : A) : M S A := fun s => (s, Ok a).

Definition raise {S A} (e : Exn) : M S A := fun s => (s, Raise e).

Definition bind {S A B} (m : M S A) (k : A -> M S B) : M S B :=
  fun s =>
    match m s with
    | (s', Ok a) => k a s'
    | (s', Raise e) => (s', Raise e)
    end.

Definition gets {S A} (f : S -> A) : M S A := fun s => (s, Ok (f s)).

Definition modify {S} (f : S -> S) : M S unit := fun s => (f s, Ok tt).

(** [try: body  except cls: handler] *)
Definition try_except {S A} (body : M S A) (cls : ExnClass)
    (handler : M S A) : M S A :=
  fun s =>
    match body s with
    | (s', Ok a) => (s', Ok a)
    | (s', Raise e) =>
        if ExnClass_eqb (exn_class e) cls then handler s'
        else (s', Raise e)
    end.

(** [try: body  finally: fin]: [fin] always runs; an exception of [fin]
    replaces the pending outcome of [body]. *)
Definition try_finally {S A} (body : M S A) (fin : M S unit) : M S A :=
  fun s =>
    match body s with
    | (s', r) =>
        match fin s' with
        | (s'', Ok _) => (s'', r)
        | (s'', Raise e) => (s'', Raise e)
        end
    end.

(** [for x in xs: body x] *)
Fixpoint for_each {S A} (xs : list A) (body : A -> M S unit) : M S unit :=
  match xs with
  | [] => ret tt
  | x :: xs' => bind (body x) (fun _ => for_each xs' body)
  end.

(** [iterations body xs s s']: the loop over [xs] ran all its iterations
    without raising, from the state [s] to the state [s']. *)
Inductive iterations {S A} (body : A -> M S unit) : list A -> S -> S -> Prop :=
| iterations_nil s : iterations body [] s s
| iterations_cons x xs s s1 s2 :
    body x s = (s1, Ok tt) ->
    iterations body xs s1 s2 ->
    iterations body (x :: xs) s s2.

End Py.

Import Py.

Notation "'let*' x ':=' c 'in' k" := (Py.bind c (fun x => k))
  (at level 10, x pattern, c at level 100, k at level 200).
Notation "c ';;;' k" := (Py.bind c (fun _ => k))
  (at level 100, k at level 200, right associativity).

(** ** Data model *)

(** Values that travel through the bridge: parameter values, evaluations
    and standard errors.  A finite float denotes a rational; [PyNone] is
    Python's [None]. *)
Inductive pyval :=
| PyNone
| PyFloat (q : Q)
| PyInt (z : Z).

(** [TParameterization]: the per-name parameter map of the engine. *)
Abbreviation TParameterization := (gmap string pyval).

(** [d.get(k)] on a dict: [None] when the key is missing. *)
Definition dict_get (d : gmap string pyval) (k : string) : pyval :=
  default PyNone (d !! k).

(** The kind code of a numpy dtype ([np.dtype(x).kind]). *)
Inductive np_kind :=
| kind_b | kind_i | kind_u | kind_f | kind_c | kind_m | kind_M
| kind_O | kind_S | kind_U | kind_V.

Module VaryingParameter.
(** Modelled from the spec: the [VaryingParameter] class of
    [optimas.core] is consumed as a plain record (name, dtype, bounds,
    fixed flag and default value, fidelity flag and target value). *)
Record t := mk {
  name : string;
  dtype : np_kind;
  lower_bound : pyval;
  upper_bound : pyval;
  is_fidelity : bool;
  fidelity_target_value : pyval;
  is_fixed : bool;
  default_value : pyval
}.
End VaryingParameter.

Module Objective.
(** Modelled from the spec: an objective has a name and a minimize flag. *)
Record t := mk { name : string; minimize : bool }.
End Objective.

Module AnalyzedParameter.
(** Modelled from the spec: an analyzed parameter ([Parameter] in
    [optimas.core]) is a named metric. *)
Record t := mk { name : string }.
End AnalyzedParameter.

Module Evaluation.
(** Modelled from the spec: an evaluation carries the evaluated
    parameter, its value and its standard error. *)
Record t := mk { parameter : AnalyzedParameter.t; value : pyval; sem : pyval }.
End Evaluation.

(** Modelled from the spec: the status of a trial
    (pending / completed / failed / other). *)
Inductive TrialStatus := PENDING | COMPLETED | FAILED | OTHER.

Definition TrialStatus_eqb (a b : TrialStatus) : bool :=
  match a, b with
  | PENDING, PENDING | COMPLETED, COMPLETED
  | FAILED, FAILED | OTHER, OTHER => true
  | _, _ => false
  end.

Module Trial.
(** Modelled from the spec: the [Trial] class of [optimas.core].
    [ax_trial_id] is [None] while the trial object has no such
    attribute: reading it then raises [AttributeError]. *)
Record t := mk {
  varying_parameters : list VaryingParameter.t;
  parameter_values : list pyval;
  ax_trial_id : option Z;
  status : TrialStatus;
  objective_evaluations : list Evaluation.t;
  parameter_evaluations : list Evaluation.t
}.

Definition completed (tr : t) : bool := TrialStatus_eqb (status tr) COMPLETED.
Definition failed (tr : t) : bool := TrialStatus_eqb (status tr) FAILED.

(** [trial.parameter_values = vs] *)
Definition set_parameter_values (vs : list pyval) (tr : t) : t :=
  mk (varying_parameters tr) vs (ax_trial_id tr) (status tr)
     (objective_evaluations tr) (parameter_evaluations tr).

(** [trial.ax_trial_id = i] *)
Definition set_ax_trial_id (i : Z) (tr : t) : t :=
  mk (varying_parameters tr) (parameter_values tr) (Some i) (status tr)
     (objective_evaluations tr) (parameter_evaluations tr).
End Trial.

(** *** The engine objects the generator touches directly *)

(** The registry of generation models; only [SOBOL] is named by the
    generator. *)
Inductive Models := SOBOL | MODEL (registry_name : string).

Definition Models_eqb (a b : Models) : bool :=
  match a, b with
  | SOBOL, SOBOL => true
  | MODEL x, MODEL y => String.eqb x y
  | _, _ => false
  end.

Record TransitionCriterion := mkCriterion { threshold : Z }.

(** Predictions attached to a point: objective means and covariances. *)
Abbreviation TModelPredictArm :=
  (gmap string Q * gmap string (gmap string Q))%type.

Section Engine.

(** [F]: fitted surrogate models; [X]: the rest of the client state
    (experiment trials and data), opaque to the generator; [H]: engine
    trial objects as returned by [get_trial]. *)
Context {F X H : Type}.

Record ModelSpec := mkModelSpec { _fitted_model : option F }.

Record GenerationStep := mkStep {
  model : Models;
  num_trials : Z;
  transition_criteria : list TransitionCriterion;
  model_spec : ModelSpec
}.

(** The generation strategy: the steps already left, the current step
    [_curr], the steps ahead, and the cached fitted model [_model]. *)
Record GenerationStrategy := mkStrategy {
  _steps_done : list GenerationStep;
  _curr : GenerationStep;
  _steps_ahead : list GenerationStep;
  _model : option F
}.

Definition current_step (gs : GenerationStrategy) : GenerationStep := _curr gs.

(** The structural state of the plan: the index of the current phase and
    the trial counts of all phases. *)
Definition phase_index (gs : GenerationStrategy) : nat := length (_steps_done gs).

Definition all_steps (gs : GenerationStrategy) : list GenerationStep :=
  (_steps_done gs ++ _curr gs :: _steps_ahead gs)%list.

Definition phase_trial_counts (gs : GenerationStrategy) : list Z :=
  map num_trials (all_steps gs).

Record OutcomeConstraint := mkOutcomeConstraint { metric_name : string }.

Record AxClient := mkClient {
  generation_strategy : GenerationStrategy;
  (** [experiment.optimization_config.outcome_constraints] *)
  outcome_constraints : list OutcomeConstraint;
  experiment_state : X
}.

Definition set_generation_strategy (gs : GenerationStrategy) (c : AxClient) : AxClient :=
  mkClient gs (outcome_constraints c) (experiment_state c).

(** Assignment to the attributes of the current step object. *)
Definition set_curr (st : GenerationStep) (gs : GenerationStrategy) : GenerationStrategy :=
  mkStrategy (_steps_done gs) st (_steps_ahead gs) (_model gs).

Definition set_num_trials (n : Z) (st : GenerationStep) : GenerationStep :=
  mkStep (model st) n (transition_criteria st) (model_spec st).

Definition set_transition_criteria (tcs : list TransitionCriterion)
    (st : GenerationStep) : GenerationStep :=
  mkStep (model st) (num_trials st) tcs (model_spec st).

Definition set_fitted_model (m : option F) (st : GenerationStep) : GenerationStep :=
  mkStep (model st) (num_trials st) (transition_criteria st) (mkModelSpec m).

Definition set_model (m : option F) (gs : GenerationStrategy) : GenerationStrategy :=
  mkStrategy (_steps_done gs) (_curr gs) (_steps_ahead gs) m.

(** The methods of the client that the generator calls. *)
Record AxClientOps := mkOps {
  (** [get_next_trial(fixed_features=ff)] *)
  get_next_trial_fixed :
    option (gmap string pyval) -> M AxClient (TParameterization * Z);
  (** [get_next_trial()] *)
  get_next_trial : M AxClient (TParameterization * Z);
  attach_trial : TParameterization -> M AxClient (TParameterization * Z);
  get_trial : Z -> M AxClient H;
  complete_trial : Z -> gmap string (pyval * pyval) -> M AxClient unit;
  mark_abandoned : H -> M AxClient unit;
  mark_failed : H -> M AxClient unit;
  (** [generation_strategy._maybe_move_to_next_step()] *)
  _maybe_move_to_next_step : M AxClient bool;
  get_best_parameters : M AxClient (option (TParameterization * TModelPredictArm));
  (** the Pareto dict, as its items in iteration order *)
  get_pareto_optimal_parameters :
    M AxClient (list (Z * (TParameterization * TModelPredictArm)))
}.

End Engine.

Arguments ModelSpec : clear implicits.
Arguments GenerationStep : clear implicits.
Arguments GenerationStrategy : clear implicits.
Arguments AxClient : clear implicits.
Arguments AxClientOps : clear implicits.

(** ** The generator *)

(** The attributes of [AxServiceGenerator] that the methods below read.
    The client object behind [self._ax_client] is the state that the
    methods thread. *)
Record AxServiceGenerator := mkGenerator {
  _varying_parameters : list VaryingParameter.t;
  objectives : list Objective.t;
  _enforce_n_init : bool;
  _abandon_failed_trials : bool;
  _fixed_features : option (gmap string pyval)
}.

Definition set_fixed_features (ff : option (gmap string pyval))
    (self : AxServiceGenerator) : AxServiceGenerator :=
  mkGenerator (_varying_parameters self) (objectives self)
    (_enforce_n_init self) (_abandon_failed_trials self) ff.

(** *** [_create_ax_parameters] *)

(** One dict of the list passed to [create_experiment]. *)
Record AxParameter := mkAxParameter {
  p_name : string;
  p_type : string;
  p_bounds : list pyval;
  p_is_fidelity : bool;
  p_target_value : pyval;
  p_value_type : string
}.

(** The message of the [ValueError]: the two adjacent literals of the
    source, which are plain (not formatted) strings. *)
Definition dtype_error_message : string :=
  "Ax range parameter can only be of type 'float'ot 'int', "
  ++ "not {var.dtype}.".

Definition value_type_of (k : np_kind) : result string :=
  match k with
  | kind_f => Ok "float"
  | kind_i => Ok "int"
  | _ => Raise (mkExn ValueError dtype_error_message)
  end.

(** The loop over [self._varying_parameters], on the two local
    accumulators [parameters] and [fixed_parameters]. *)
Fixpoint create_ax_parameters_loop (vars : list VaryingParameter.t)
    (parameters : list AxParameter) (fixed_parameters : gmap string pyval)
    : result (list AxParameter * gmap string pyval) :=
  match vars with
  | [] => Ok (parameters, fixed_parameters)
  | var :: rest =>
      match value_type_of (VaryingParameter.dtype var) with
      | Raise e => Raise e
      | Ok value_type =>
          let parameters' :=
            (parameters ++
             [ mkAxParameter (VaryingParameter.name var) "range"
                 [VaryingParameter.lower_bound var; VaryingParameter.upper_bound var]
                 (VaryingParameter.is_fidelity var)
                 (VaryingParameter.fidelity_target_value var)
                 value_type ])%list in
          let fixed_parameters' :=
            if VaryingParameter.is_fixed var
            then <[VaryingParameter.name var := VaryingParameter.default_value var]> fixed_parameters
            else fixed_parameters in
          create_ax_parameters_loop rest parameters' fixed_parameters'
      end
  end.

Definition _create_ax_parameters : M AxServiceGenerator (list AxParameter) :=
  fun self =>
    match create_ax_parameters_loop (_varying_parameters self) [] ∅ with
    | Ok (parameters, fixed_parameters) =>
        (set_fixed_features (Some fixed_parameters) self, Ok parameters)
    | Raise e => (self, Raise e)
    end.

(** *** numpy's [argmin] and [argmax] on a list of floats *)

Definition Qltb (x y : Q) : bool := negb (Qle_bool y x).

(** Scan keeping the index of the first extremal element seen so far:
    a later element replaces it only when strictly better. *)
Fixpoint arg_scan (better : Q -> Q -> bool) (best_i : nat) (best : Q)
    (i : nat) (l : list Q) : nat :=
  match l with
  | [] => best_i
  | x :: l' =>
      if better x best then arg_scan better i x (S i) l'
      else arg_scan better best_i best (S i) l'
  end.

Definition np_argmin (l : list Q) : result nat :=
  match l with
  | [] => Raise (mkExn ValueError "attempt to get argmin of an empty sequence")
  | x :: l' => Ok (arg_scan Qltb 0 x 1 l')
  end.

Definition np_argmax (l : list Q) : result nat :=
  match l with
  | [] => Raise (mkExn ValueError "attempt to get argmax of an empty sequence")
  | x :: l' => Ok (arg_scan (fun a b => Qltb b a) 0 x 1 l')
  end.

(** [names.index(x)] *)
Fixpoint list_index (x : string) (names : list string) : option nat :=
  match names with
  | [] => None
  | y :: names' =>
      if String.eqb y x then Some 0%nat else S <$> list_index x names'
  end.

(** [repr] of a list of strings, as it appears in a formatted message. *)
Definition repr_names (names : list string) : string :=
  "[" ++ String.concat ", " (map (fun n => "'" ++ n ++ "'") names) ++ "]".

(** ** The methods that talk to the client *)

Section Bridge.

Context {F X H : Type}.

(** The methods of the client in use. *)
Variable ops : AxClientOps F X H.

(** [version.parse(ax_version) >= version.parse("0.3.5")] for the
    installed Ax. *)
Variable ax_version_ge_0_3_5 : bool.

Implicit Type self : AxServiceGenerator.
Implicit Type trial : Trial.t.
Implicit Type c : AxClient F X.

(** *** [_ask] *)

(** The state of one iteration of [_ask]: the client and the trial
    object being filled. *)
Record AskState := mkAsk { ask_client : AxClient F X; ask_trial : Trial.t }.

Definition ask_call {A} (m : M (AxClient F X) A) : M AskState A :=
  fun s =>
    match m (ask_client s) with
    | (c', r) => (mkAsk c' (ask_trial s), r)
    end.

Definition ask_assign (f : Trial.t -> Trial.t) : M AskState unit :=
  modify (fun s => mkAsk (ask_client s) (f (ask_trial s))).

(** The [try ... except TypeError] request for the next point. *)
Definition request_next_trial self : M AskState (TParameterization * Z) :=
  try_except
    (ask_call (get_next_trial_fixed ops (_fixed_features self)))
    TypeError
    (ask_call (get_next_trial ops)).

(** The body of the loop of [_ask]. *)
Definition _ask_body self : M AskState unit :=
  let* (parameters, trial_id) := request_next_trial self in
  ask_assign
    (Trial.set_parameter_values
       (map (fun var => dict_get parameters (VaryingParameter.name var))
            (_varying_parameters self))) ;;;
  ask_assign (Trial.set_ax_trial_id trial_id).

(** [_ask]: the trial objects of the list (distinct objects) are filled
    in place, in order; the list itself is what is returned.  The state of
    the list is given back also when an iteration raises. *)
Fixpoint _ask self (trials : list Trial.t) c
    : AxClient F X * list Trial.t * result unit :=
  match trials with
  | [] => (c, [], Ok tt)
  | trial :: rest =>
      match _ask_body self (mkAsk c trial) with
      | (s, Ok _) =>
          match _ask self rest (ask_client s) with
          | (c', rest', r) => (c', ask_trial s :: rest', r)
          end
      | (s, Raise e) => (ask_client s, ask_trial s :: rest, Raise e)
      end
  end.

(** *** [_tell] *)

(** The state of [_tell]: the client and the two local variables that
    live across the iterations of the loop ([None]: not bound yet). *)
Record TellState := mkTell {
  tell_client : AxClient F X;
  trial_id : option Z;
  ax_trial : option H
}.

Definition tell_call {A} (m : M (AxClient F X) A) : M TellState A :=
  fun s =>
    match m (tell_client s) with
    | (c', r) => (mkTell c' (trial_id s) (ax_trial s), r)
    end.

Definition bind_trial_id (i : Z) : M TellState unit :=
  modify (fun s => mkTell (tell_client s) (Some i) (ax_trial s)).

Definition bind_ax_trial (h : H) : M TellState unit :=
  modify (fun s => mkTell (tell_client s) (trial_id s) (Some h)).

Definition unbound (var : string) : Exn :=
  mkExn UnboundLocalError
    ("local variable '" ++ var ++ "' referenced before assignment").

Definition read_trial_id : M TellState Z :=
  fun s =>
    match trial_id s with
    | Some i => (s, Ok i)
    | None => (s, Raise (unbound "trial_id"))
    end.

Definition read_ax_trial : M TellState H :=
  fun s =>
    match ax_trial s with
    | Some h => (s, Ok h)
    | None => (s, Raise (unbound "ax_trial"))
    end.

(** [trial.ax_trial_id] *)
Definition getattr_ax_trial_id {S} trial : M S Z :=
  match Trial.ax_trial_id trial with
  | Some i => ret i
  | None =>
      raise (mkExn AttributeError
               "'Trial' object has no attribute 'ax_trial_id'")
  end.

(** The dict [params] built from the trial's own parameters and values. *)
Definition attach_params trial : TParameterization :=
  fold_left
    (fun params '(var, value) => <[VaryingParameter.name var := value]> params)
    (zip (Trial.varying_parameters trial) (Trial.parameter_values trial))
    ∅.

Definition modify_current_step (f : GenerationStep F -> GenerationStep F)
    : M (AxClient F X) unit :=
  modify (fun c =>
    let gs := generation_strategy c in
    set_generation_strategy (set_curr (f (current_step gs)) gs) c).

(** [cs.transition_criteria[0].threshold -= 1] *)
Definition decrement_first_threshold : M (AxClient F X) unit :=
  let* cs := gets (fun c => current_step (generation_strategy c)) in
  match transition_criteria cs with
  | [] => raise (mkExn IndexError "list index out of range")
  | tc :: tcs =>
      modify_current_step
        (set_transition_criteria (mkCriterion (threshold tc - 1) :: tcs))
  end.

(** The reduction of the number of initialization trials
    (the two branches on the Ax version). *)
Definition reduce_init_trials : M (AxClient F X) unit :=
  let* cs := gets (fun c => current_step (generation_strategy c)) in
  if ax_version_ge_0_3_5 then
    if Models_eqb (model cs) SOBOL then
      modify_current_step (fun cs => set_num_trials (num_trials cs - 1) cs) ;;;
      decrement_first_threshold ;;;
      let* _ := _maybe_move_to_next_step ops in
      ret tt
    else ret tt
  else
    if Models_eqb (model cs) SOBOL then
      modify_current_step (fun cs => set_num_trials (num_trials cs - 1) cs) ;;;
      let* _ := _maybe_move_to_next_step ops in
      ret tt
    else ret tt.

(** The [try] block. *)
Definition tell_lookup trial : M TellState unit :=
  let* i := getattr_ax_trial_id trial in
  bind_trial_id i ;;;
  let* h := tell_call (get_trial ops i) in
  bind_ax_trial h.

(** The [except AttributeError] block. *)
Definition tell_attach self trial : M TellState unit :=
  let params := attach_params trial in
  let* (_, i) := tell_call (attach_trial ops params) in
  bind_trial_id i ;;;
  let* h := tell_call (get_trial ops i) in
  bind_ax_trial h ;;;
  if negb (TrialStatus_eqb (Trial.status trial) FAILED)
     && negb (_enforce_n_init self)
  then tell_call reduce_init_trials
  else ret tt.

Definition tell_resolve self trial : M TellState unit :=
  try_except (tell_lookup trial) AttributeError (tell_attach self trial).

Definition evaluation_entry (ev : Evaluation.t) : string * (pyval * pyval) :=
  (AnalyzedParameter.name (Evaluation.parameter ev),
   (Evaluation.value ev, Evaluation.sem ev)).

(** The dict [outcome_evals] of a completed trial. *)
Definition outcome_evals c trial : gmap string (pyval * pyval) :=
  let objective_evals :=
    fold_left (fun acc ev => <[(evaluation_entry ev).1 := (evaluation_entry ev).2]> acc)
      (Trial.objective_evaluations trial) ∅ in
  match outcome_constraints c with
  | [] => objective_evals
  | _ :: _ =>
      let ocs := map metric_name (outcome_constraints c) in
      fold_left
        (fun acc ev =>
           let par_name := AnalyzedParameter.name (Evaluation.parameter ev) in
           if bool_decide (par_name ∈ ocs)
           then <[par_name := (Evaluation.value ev, Evaluation.sem ev)]> acc
           else acc)
        (Trial.parameter_evaluations trial) objective_evals
  end.

(** The [finally] block. *)
Definition tell_mark self trial : M TellState unit :=
  if Trial.completed trial then
    let* raw_data := gets (fun s => outcome_evals (tell_client s) trial) in
    let* i := read_trial_id in
    tell_call (complete_trial ops i raw_data)
  else if Trial.failed trial then
    if _abandon_failed_trials self then
      let* h := read_ax_trial in
      tell_call (mark_abandoned ops h)
    else
      let* h := read_ax_trial in
      tell_call (mark_failed ops h)
  else ret tt.

(** The body of the loop of [_tell]. *)
Definition _tell_body self trial : M TellState unit :=
  try_finally (tell_resolve self trial) (tell_mark self trial).

Definition _tell self (trials : list Trial.t) : M (AxClient F X) unit :=
  fun c =>
    match for_each trials (_tell_body self) (mkTell c None None) with
    | (s, r) => (tell_client s, r)
    end.

(** *** [_prepare_to_send] *)

Definition _prepare_to_send : M (AxClient F X) unit :=
  let* generation_strategy_model :=
    gets (fun c => _model (generation_strategy c)) in
  match generation_strategy_model with
  | Some _ =>
      modify_current_step (set_fitted_model None) ;;;
      modify (fun c =>
        set_generation_strategy (set_model None (generation_strategy c)) c)
  | None => ret tt
  end.

(** *** [_get_best_values] *)

Definition objective_not_found (objective : string)
    (objective_names : list string) : Exn :=
  mkExn ValueError
    ("Objective " ++ objective ++ " not found. Available objectives "
     ++ "are " ++ repr_names objective_names ++ ".").

(** [[objs[name] for ... in pp.items()]] *)
Fixpoint pareto_objective_values (name : string)
    (pp : list (Z * (TParameterization * TModelPredictArm)))
    : result (list Q) :=
  match pp with
  | [] => Ok []
  | (_, (_, (objs, _))) :: pp' =>
      match objs !! name with
      | None => Raise (mkExn KeyError name)
      | Some v =>
          match pareto_objective_values name pp' with
          | Ok vs => Ok (v :: vs)
          | Raise e => Raise e
          end
      end
  end.

Definition lift_result {S A} (r : result A) : M S A := fun s => (s, r).

Definition _get_best_values self (objective : string)
    : M (AxClient F X) (option TParameterization) :=
  let objective_names := map Objective.name (objectives self) in
  match list_index objective objective_names with
  | None => raise (objective_not_found objective objective_names)
  | Some i =>
      match objectives self !! i with
      | None => raise (mkExn IndexError "list index out of range")
      | Some objective =>
          if (1 <? length (objectives self))%nat then
            let* pp := get_pareto_optimal_parameters ops in
            let* obj_vals :=
              lift_result (pareto_objective_values (Objective.name objective) pp) in
            let param_vals := map (fun item => item.2.1) pp in
            let* best_obj_i :=
              lift_result (if Objective.minimize objective
                           then np_argmin obj_vals
                           else np_argmax obj_vals) in
            match param_vals !! best_obj_i with
            | Some slice_values => ret (Some slice_values)
            | None => raise (mkExn IndexError "list index out of range")
            end
          else
            let* result := get_best_parameters ops in
            match result with
            | Some (slice_values, _) => ret (Some slice_values)
            | None => ret None
            end
      end
  end.

End Bridge.

(** ** [_update]: merging a newer generator into the original one *)

Module Merge.

(** Objects live in a store; an attribute holds a reference to another
    object or plain data.  The generator and its client are objects, so
    that the identity of the client can be told from its contents. *)
Definition loc := positive.

Inductive value :=
| Ref (l : loc)
| Data (d : pyval).

Abbreviation object := (gmap string value).
Abbreviation store := (gmap loc (gmap string value)).

(** [vars(obj)] *)
Definition vars (h : store) (l : loc) : gmap string value :=
  default ∅ (h !! l).

(** [obj.attr] *)
Definition getattr (l : loc) (attr : string) : M store value :=
  fun h =>
    match vars h l !! attr with
    | Some v => (h, Ok v)
    | None => (h, Raise (mkExn AttributeError attr))
    end.

(** [obj.attr = v] *)
Definition setattr (l : loc) (attr : string) (v : value) : M store unit :=
  modify (fun h => <[l := <[attr := v]> (vars h l)]> h).

(** Modelled from the spec: [update_object] of [optimas.utils.other] is a
    field-wise copy-assignment of the attributes of the newer object onto
    the retained one; the attributes the newer object lacks are kept. *)
Definition update_object (object_old object_new : loc) : M store unit :=
  modify (fun h => <[object_old := vars h object_new ∪ vars h object_old]> h).

(** Modelled from the spec: the base [Generator._update], which the
    override replaces "to make sure that the original AxClient is updated
    and not simply replaced", copies the attributes of the newer
    generator onto [self]. *)
Definition base_update (self new_generator : loc) : M store unit :=
  update_object self new_generator.

Definition as_object (v : value) : M store loc :=
  match v with
  | Ref l => ret l
  | Data _ => raise (mkExn TypeError "vars() argument must have __dict__ attribute")
  end.

(** [AxServiceGenerator._update] *)
Definition _update (self new_generator : loc) : M store unit :=
  let* original_ax_client := getattr self "_ax_client" in
  base_update self new_generator ;;;
  let* new_ax_client := getattr new_generator "_ax_client" in
  (let* old := as_object original_ax_client in
   let* new := as_object new_ax_client in
   update_object old new) ;;;
  setattr self "_ax_client" original_ax_client.

End Merge.

(** ** A reference client

    A small client that implements the interface, used to run the methods
    on concrete inputs. *)

Module RefClient.

Inductive EngineStatus := E_RUNNING | E_COMPLETED | E_ABANDONED | E_FAILED.

Record Experiment := mkExperiment {
  trials : list (Z * (TParameterization * EngineStatus));
  data : list (Z * gmap string (pyval * pyval));
  next_index : Z;
  (** trials generated by the current step *)
  generated : Z;
  (** whether [get_next_trial] accepts [fixed_features] *)
  custom_client : bool;
  (** what the model would suggest, and what it predicts *)
  suggestion : TParameterization;
  best_point : option (TParameterization * TModelPredictArm);
  pareto_front : list (Z * (TParameterization * TModelPredictArm))
}.

Definition Client : Type := AxClient unit Experiment.

Definition with_experiment (f : Experiment -> Experiment) (c : Client) : Client :=
  mkClient (generation_strategy c) (outcome_constraints c)
    (f (experiment_state c)).

Fixpoint lookup_trial (i : Z) (l : list (Z * (TParameterization * EngineStatus)))
    : option (TParameterization * EngineStatus) :=
  match l with
  | [] => None
  | (j, t) :: l' => if Z.eqb i j then Some t else lookup_trial i l'
  end.

Fixpoint set_status (i : Z) (st : EngineStatus)
    (l : list (Z * (TParameterization * EngineStatus)))
    : list (Z * (TParameterization * EngineStatus)) :=
  match l with
  | [] => []
  | (j, (p, s)) :: l' =>
      if Z.eqb i j then (j, (p, st)) :: l' else (j, (p, s)) :: set_status i st l'
  end.

Definition add_trial (by_model : bool) (params : TParameterization)
    : M Client (TParameterization * Z) :=
  fun c =>
    let e := experiment_state c in
    let i := next_index e in
    (with_experiment (fun e =>
       mkExperiment ((trials e ++ [(i, (params, E_RUNNING))])%list) (data e)
         (i + 1) (if by_model then generated e + 1 else generated e)
         (custom_client e) (suggestion e) (best_point e) (pareto_front e)) c,
     Ok (params, i)).

Definition ref_get_next_trial_fixed (ff : option (gmap string pyval))
    : M Client (TParameterization * Z) :=
  fun c =>
    if custom_client (experiment_state c)
    then add_trial true (default ∅ ff ∪ suggestion (experiment_state c)) c
    else (c, Raise (mkExn TypeError
                "get_next_trial() got an unexpected keyword argument 'fixed_features'")).

Definition ref_get_next_trial : M Client (TParameterization * Z) :=
  fun c => add_trial true (suggestion (experiment_state c)) c.

Definition ref_get_trial (i : Z) : M Client Z :=
  fun c =>
    match lookup_trial i (trials (experiment_state c)) with
    | Some _ => (c, Ok i)
    | None => (c, Raise (mkExn KeyError "trial index"))
    end.

Definition mark (st : EngineStatus) (i : Z) : M Client unit :=
  fun c =>
    match lookup_trial i (trials (experiment_state c)) with
    | Some (_, E_RUNNING) =>
        (with_experiment (fun e =>
           mkExperiment (set_status i st (trials e)) (data e) (next_index e)
             (generated e) (custom_client e) (suggestion e) (best_point e)
             (pareto_front e)) c, Ok tt)
    | Some _ => (c, Raise (mkExn ValueError "trial is not running"))
    | None => (c, Raise (mkExn KeyError "trial index"))
    end.

Definition ref_complete_trial (i : Z) (raw : gmap string (pyval * pyval))
    : M Client unit :=
  mark E_COMPLETED i ;;;
  modify (with_experiment (fun e =>
    mkExperiment (trials e) ((data e ++ [(i, raw)])%list) (next_index e)
      (generated e) (custom_client e) (suggestion e) (best_point e)
      (pareto_front e))).

(** The current step is left when all its criteria are met and a step
    follows it. *)
Definition ref_maybe_move : M Client bool :=
  fun c =>
    let gs := generation_strategy c in
    let e := experiment_state c in
    if forallb (fun tc => (threshold tc <=? generated e)%Z)
         (transition_criteria (_curr gs))
    then
      match _steps_ahead gs with
      | nxt :: ahead =>
          (mkClient
             (mkStrategy ((_steps_done gs ++ [_curr gs])%list) nxt ahead (_model gs))
             (outcome_constraints c)
             (mkExperiment (trials e) (data e) (next_index e) 0
                (custom_client e) (suggestion e) (best_point e)
                (pareto_front e)),
           Ok true)
      | [] => (c, Ok false)
      end
    else (c, Ok false).

Definition ops : AxClientOps unit Experiment Z :=
  mkOps
    ref_get_next_trial_fixed
    ref_get_next_trial
    (add_trial false)
    ref_get_trial
    ref_complete_trial
    (mark E_ABANDONED)
    (mark E_FAILED)
    ref_maybe_move
    (gets (fun c => best_point (experiment_state c)))
    (gets (fun c => pareto_front (experiment_state c))).

(** A plan with a Sobol phase of [n] trials followed by a model phase. *)
Definition sobol_step (n : Z) : GenerationStep unit :=
  mkStep SOBOL n [mkCriterion n] (mkModelSpec None).

Definition model_step : GenerationStep unit :=
  mkStep (MODEL "GPEI") (-1) [] (mkModelSpec None).

Definition fresh_experiment (custom : bool) : Experiment :=
  mkExperiment [] [] 0 0 custom
    {[ "x0" := PyFloat (1 # 2); "x1" := PyFloat (3 # 1) ]} None [].

Definition fresh_client (custom : bool) (n_init : Z) : Client :=
  mkClient (mkStrategy [] (sobol_step n_init) [model_step] None)
    [] (fresh_experiment custom).

End RefClient.

(** ** Vocabulary of the statements *)

(** [mentions needle text]: [needle] occurs in [text]. *)
Fixpoint mentions (needle text : string) : bool :=
  if String.prefix needle text then true
  else
    match text with
    | EmptyString => false
    | String _ text' => mentions needle text'
    end.

(** The dtypes that the translator accepts. *)
Definition range_dtype (k : np_kind) : bool :=
  match k with
  | kind_f | kind_i => true
  | _ => false
  end.

(** The bounded-range spec of one varying parameter. *)
Definition range_spec (var : VaryingParameter.t) : AxParameter :=
  mkAxParameter (VaryingParameter.name var) "range"
    [VaryingParameter.lower_bound var; VaryingParameter.upper_bound var]
    (VaryingParameter.is_fidelity var)
    (VaryingParameter.fidelity_target_value var)
    (match VaryingParameter.dtype var with
     | kind_f => "float"
     | _ => "int"
     end).

(** One iteration of the collection of the fixed parameters. *)
Definition add_fixed (acc : gmap string pyval) (var : VaryingParameter.t)
    : gmap string pyval :=
  if VaryingParameter.is_fixed var
  then <[VaryingParameter.name var := VaryingParameter.default_value var]> acc
  else acc.

(** The fixed parameters named [n], in declaration order. *)
Definition fixed_named (n : string) (vars : list VaryingParameter.t)
    : list VaryingParameter.t :=
  filter (fun var => VaryingParameter.is_fixed var = true
                     ∧ VaryingParameter.name var = n) vars.

(** The evaluations of the metric [n], in order. *)
Definition evaluations_named (n : string) (evs : list Evaluation.t)
    : list Evaluation.t :=
  filter (fun ev => AnalyzedParameter.name (Evaluation.parameter ev) = n) evs.

(** What one successful iteration of [_ask] writes on the trial: the values
    of the returned map in declaration order, then the trial id. *)
Definition filled (self : AxServiceGenerator) (parameters : TParameterization)
    (i : Z) (trial : Trial.t) : Trial.t :=
  Trial.set_ax_trial_id i
    (Trial.set_parameter_values
       (map (fun var => dict_get parameters (VaryingParameter.name var))
            (_varying_parameters self))
       trial).

Section Vocabulary.

Context {F X H : Type}.
Variable ops : AxClientOps F X H.

(** The engine answered the request for the next point of [_ask] with
    [(parameters, i)]: at once, or on the request without fixed features
    after a [TypeError]. *)
Definition engine_answered (self : AxServiceGenerator) (c : AxClient F X)
    (parameters : TParameterization) (i : Z) (c' : AxClient F X) : Prop :=
  get_next_trial_fixed ops (_fixed_features self) c = (c', Ok (parameters, i))
  ∨ ∃ c1 e,
      get_next_trial_fixed ops (_fixed_features self) c = (c1, Raise e)
      ∧ exn_class e = TypeError
      ∧ get_next_trial ops c1 = (c', Ok (parameters, i)).

(** [trial'] is [trial] as filled from an answer of the engine. *)
Definition filled_from_engine (self : AxServiceGenerator)
    (trial trial' : Trial.t) : Prop :=
  ∃ c c' parameters i,
    engine_answered self c parameters i c'
    ∧ trial' = filled self parameters i trial.

(** The current step with its trial count and criteria replaced. *)
Definition with_counters (n : Z) (tcs : list TransitionCriterion)
    (c : AxClient F X) : AxClient F X :=
  let gs := generation_strategy c in
  let cs := current_step gs in
  set_generation_strategy
    (set_curr (mkStep (model cs) n tcs (model_spec cs)) gs) c.

(** The outcome of a call whose returned value is not used. *)
Definition discard (mv : AxClient F X * result bool) : AxClient F X * result unit :=
  match mv with
  | (c, Ok _) => (c, Ok tt)
  | (c, Raise e) => (c, Raise e)
  end.

(** The evaluations of analyzed parameters that are metrics of an outcome
    constraint registered in the client. *)
Definition constraint_evaluations (c : AxClient F X) (trial : Trial.t)
    : list Evaluation.t :=
  filter (fun ev => AnalyzedParameter.name (Evaluation.parameter ev)
                    ∈ map metric_name (outcome_constraints c))
    (Trial.parameter_evaluations trial).

(** The entry of the outcome map under the name [n]: the evaluation of a
    constraint metric of that name if there is one, else the evaluation of
    the objective of that name, else none. *)
Definition expected_outcome (c : AxClient F X) (trial : Trial.t) (n : string)
    : option (pyval * pyval) :=
  match last (evaluations_named n (constraint_evaluations c trial)) with
  | Some ev => Some (Evaluation.value ev, Evaluation.sem ev)
  | None =>
      match last (evaluations_named n (Trial.objective_evaluations trial)) with
      | Some ev => Some (Evaluation.value ev, Evaluation.sem ev)
      | None => None
      end
  end.

(** The state of [_tell] after the call that may leave the phase. *)
Definition after_move (i : Z) (h : H) (mv : AxClient F X * result bool)
    : TellState * result unit :=
  match mv with
  | (c, Ok _) => (mkTell c (Some i) (Some h), Ok tt)
  | (c, Raise e) => (mkTell c (Some i) (Some h), Raise e)
  end.

(** The claim that every failure of the lookup of the engine trial is
    answered by the attach fallback. *)
Definition lookup_failure_recovered (v : bool) (self : AxServiceGenerator)
    (trial : Trial.t) (s : TellState) : Prop :=
  ∀ s1 e,
    tell_lookup ops trial s = (s1, Raise e) →
    tell_resolve ops v self trial s = tell_attach ops v self trial s1.

End Vocabulary.

(** Inputs for the examples. *)
Module Examples.

Definition float_parameter (n : string) (lo hi : Q) : VaryingParameter.t :=
  VaryingParameter.mk n kind_f (PyFloat lo) (PyFloat hi) false PyNone false PyNone.

Definition fixed_int_parameter (n : string) (lo hi v : Z) : VaryingParameter.t :=
  VaryingParameter.mk n kind_i (PyInt lo) (PyInt hi) false PyNone true (PyInt v).

Definition bool_parameter (n : string) : VaryingParameter.t :=
  VaryingParameter.mk n kind_b (PyInt 0) (PyInt 1) false PyNone false PyNone.

Definition x0 := float_parameter "x0" 0 1.
Definition x1 := float_parameter "x1" 0 5.
Definition x2 := float_parameter "x2" (-1) 1.

(** One objective [f], to be minimized. *)
Definition generator (vars : list VaryingParameter.t) : AxServiceGenerator :=
  mkGenerator vars [Objective.mk "f" true] false true None.

(** Two objectives. *)
Definition generator_moo : AxServiceGenerator :=
  mkGenerator [x0; x1] [Objective.mk "f" true; Objective.mk "g" false]
    false true None.

Definition pending_trial : Trial.t :=
  Trial.mk [x0; x1; x2] [] None PENDING [] [].

Definition f_evaluation (v : Q) : Evaluation.t :=
  Evaluation.mk (AnalyzedParameter.mk "f") (PyFloat v) PyNone.

(** An evaluated trial that was not produced by [_ask]. *)
Definition external_trial : Trial.t :=
  Trial.mk [x0; x1] [PyFloat 1; PyFloat 2] None COMPLETED [f_evaluation 3] [].

(** An evaluated trial that carries an id the client does not know. *)
Definition stray_trial : Trial.t :=
  Trial.mk [x0; x1] [PyFloat 1; PyFloat 2] (Some 7) COMPLETED [f_evaluation 3] [].

Definition pareto_point (i : Z) (x f g : Q)
    : Z * (TParameterization * TModelPredictArm) :=
  (i, ({[ "x0" := PyFloat x ]}, ({[ "f" := f; "g" := g ]}, ∅))).

Definition with_front (front : list (Z * (TParameterization * TModelPredictArm)))
    (c : RefClient.Client) : RefClient.Client :=
  RefClient.with_experiment (fun e =>
    RefClient.mkExperiment (RefClient.trials e) (RefClient.data e)
      (RefClient.next_index e) (RefClient.generated e)
      (RefClient.custom_client e) (RefClient.suggestion e)
      (RefClient.best_point e) front) c.

(** A client in its model phase, with a fitted model cached. *)
Definition fitted_client : AxClient nat RefClient.Experiment :=
  mkClient
    (mkStrategy
       [mkStep SOBOL 4 [mkCriterion 4] (mkModelSpec None)]
       (mkStep (MODEL "GPEI") (-1) [] (mkModelSpec (Some 17%nat)))
       []
       (Some 17%nat))
    [] (RefClient.fresh_experiment true).

(** A store with the original generator (1) and its client (10), and a
    newer generator (2) with its own client (20). *)
Definition merge_store : Merge.store :=
  {[ 1%positive := {[ "_ax_client" := Merge.Ref 10%positive; "_n_init" := Merge.Data (PyInt 4) ]};
     10%positive := {[ "_experiment" := Merge.Data (PyInt 0) ]};
     2%positive := {[ "_ax_client" := Merge.Ref 20%positive; "_n_init" := Merge.Data (PyInt 4) ]};
     20%positive := {[ "_experiment" := Merge.Data (PyInt 5) ]} ]}.

End Examples.

(** ** The other methods of the generator *)

(** [ObjectiveProperties(minimize=...)] *)
Record ObjectiveProperties := mkObjectiveProperties { op_minimize : bool }.

(** [_create_ax_objectives] *)
Definition _create_ax_objectives (self : AxServiceGenerator)
    : gmap string ObjectiveProperties :=
  fold_left
    (fun objectives obj =>
       <[Objective.name obj := mkObjectiveProperties (Objective.minimize obj)]>
         objectives)
    (objectives self) ∅.

(** The dict [bo_model_kwargs] handed to the generation steps. *)
Record BoModelKwargs := mkBoModelKwargs {
  kw_torch_dtype : string;
  kw_torch_device : string;
  kw_fit_out_of_design : bool
}.

(** The attributes of the generator that the methods below read, beside
    the ones of [AxServiceGenerator]. *)
Record GeneratorAttributes := mkAttributes {
  torch_device : string;
  _fit_out_of_design : bool;
  _parameter_constraints : option (list string);
  _outcome_constraints : option (list string);
  _model_history_dir : string;
  _n_evaluated_trials_last_saved : Z
}.

(** [os.path.join(a, b)] on a POSIX system. *)
Definition ends_with_slash (a : string) : bool :=
  match String.rev a with
  | String c _ => Ascii.eqb c "/"
  | EmptyString => false
  end.

Definition os_path_join (a b : string) : string :=
  if String.prefix "/" b then b
  else if String.eqb a "" || ends_with_slash a then a ++ b
  else a ++ "/" ++ b.

(** [str(n)] of an integer, as [format] writes it. *)
Definition format_int (n : Z) : string :=
  DecimalString.NilZero.string_of_int (Z.to_int n).

(** The path of the file written by [_save_model_to_file]. *)
Definition model_file_path (attrs : GeneratorAttributes) : string :=
  os_path_join (_model_history_dir attrs)
    ("ax_client_at_eval_"
     ++ format_int (_n_evaluated_trials_last_saved attrs) ++ ".json").

Section MoreMethods.

(** [P]: the parameter objects of a search space built by the engine. *)
Context {F X H P : Type}.

(** The further functions of the engine that the generator calls. *)
Record AxExtraOps := mkExtraOps {
  (** [AxClient(generation_strategy=GenerationStrategy(steps),
      verbose_logging=False)] *)
  new_ax_client : list (GenerationStep F) -> result (AxClient F X);
  create_experiment :
    list AxParameter -> gmap string ObjectiveProperties ->
    option (list string) -> option (list string) -> M (AxClient F X) unit;
  (** [ax_trial.mark_abandoned(unsafe=True)] *)
  mark_abandoned_unsafe : H -> M (AxClient F X) unit;
  (** [ax_trial.mark_failed(unsafe=True)] *)
  mark_failed_unsafe : H -> M (AxClient F X) unit;
  save_to_json_file : string -> M (AxClient F X) unit;
  fit_model : M (AxClient F X) unit;
  (** [InstantiationBase.make_search_space(parameters, None).parameters] *)
  make_search_space : list AxParameter -> result (gmap string P);
  (** [experiment.search_space.update_parameter(p)] *)
  update_parameter : P -> M (AxClient F X) unit
}.

Variable ops : AxClientOps F X H.
Variable xops : AxExtraOps.

Implicit Type self : AxServiceGenerator.
Implicit Type attrs : GeneratorAttributes.
Implicit Type trial : Trial.t.
Implicit Type c : AxClient F X.

(** [_create_generation_steps] as this class defines it; the subclasses
    override it. *)
Definition _create_generation_steps (bo_model_kwargs : BoModelKwargs)
    : result (list (GenerationStep F)) :=
  Raise (mkExn NotImplementedError "").

(** [_create_ax_client], for the [_create_generation_steps] of the class
    at hand.  The state is the generator, whose fixed features
    [_create_ax_parameters] assigns; the value is the new client. *)
Definition _create_ax_client
    (create_generation_steps : BoModelKwargs -> result (list (GenerationStep F)))
    attrs : M AxServiceGenerator (AxClient F X) :=
  let bo_model_kwargs :=
    mkBoModelKwargs "double" (torch_device attrs) (_fit_out_of_design attrs) in
  let* steps := lift_result (create_generation_steps bo_model_kwargs) in
  let* ax_client := lift_result (new_ax_client xops steps) in
  let* parameters := _create_ax_parameters in
  let* objectives := gets _create_ax_objectives in
  match create_experiment xops parameters objectives
          (_outcome_constraints attrs) (_parameter_constraints attrs)
          ax_client with
  | (ax_client', Ok _) => ret ax_client'
  | (_, Raise e) => raise e
  end.

(** [_save_model_to_file] *)
Definition _save_model_to_file attrs : M (AxClient F X) unit :=
  let file_path := model_file_path attrs in
  save_to_json_file xops file_path.

(** [_mark_trial_as_failed] *)
Definition _mark_trial_as_failed self trial : M (AxClient F X) unit :=
  let* i := getattr_ax_trial_id trial in
  let* ax_trial := get_trial ops i in
  if _abandon_failed_trials self
  then mark_abandoned_unsafe xops ax_trial
  else mark_failed_unsafe xops ax_trial.

(** The state of [_update_parameter]: the generator and its client. *)
Definition on_self {A} (m : M AxServiceGenerator A)
    : M (AxServiceGenerator * AxClient F X) A :=
  fun s =>
    match m s.1 with
    | (self', r) => ((self', s.2), r)
    end.

Definition on_client {A} (m : M (AxClient F X) A)
    : M (AxServiceGenerator * AxClient F X) A :=
  fun s =>
    match m s.2 with
    | (c', r) => ((s.1, c'), r)
    end.

(** [_update_parameter] *)
Definition _update_parameter (parameter : VaryingParameter.t)
    : M (AxServiceGenerator * AxClient F X) unit :=
  let* parameters := on_self _create_ax_parameters in
  let* new_search_space := lift_result (make_search_space xops parameters) in
  match new_search_space !! VaryingParameter.name parameter with
  | None => raise (mkExn KeyError (VaryingParameter.name parameter))
  | Some p => on_client (update_parameter xops p)
  end.

(** The arguments with which [plot_slice] calls the plot function of Ax;
    the rendering itself is outside the model. *)
Record SliceCall := mkSliceCall {
  slice_model : option F;
  slice_param_name : string;
  slice_metric_name : string;
  slice_slice_values : option TParameterization
}.

(** The arguments with which [plot_contour] calls the plot function of
    Ax. *)
Record ContourCall := mkContourCall {
  contour_model : option F;
  contour_param_x : string;
  contour_param_y : string;
  contour_metric_name : string;
  contour_slice_values : option TParameterization
}.

(** [xs[i].name] when the argument is [None]. *)
Definition default_name {A} (given : option string) (xs : list A)
    (i : nat) (name : A -> string) : M (AxClient F X) string :=
  match given with
  | Some n => ret n
  | None =>
      match xs !! i with
      | Some x => ret (name x)
      | None => raise (mkExn IndexError "list index out of range")
      end
  end.

(** [slice_values], or the best values when it is [None]. *)
Definition default_slice_values self (objective : string)
    (slice_values : option TParameterization)
    : M (AxClient F X) (option TParameterization) :=
  match slice_values with
  | Some v => ret (Some v)
  | None => _get_best_values ops self objective
  end.

(** [plot_slice], up to the call of the plot function. *)
Definition plot_slice self (param objective : option string)
    (slice_values : option TParameterization) : M (AxClient F X) SliceCall :=
  let* param := default_name param (_varying_parameters self) 0 VaryingParameter.name in
  let* objective := default_name objective (objectives self) 0 Objective.name in
  fit_model xops ;;;
  let* slice_values := default_slice_values self objective slice_values in
  let* fitted := gets (fun c => _model (generation_strategy c)) in
  ret (mkSliceCall fitted param objective slice_values).

(** [plot_contour], up to the call of the plot function. *)
Definition plot_contour self (param_x param_y objective : option string)
    (slice_values : option TParameterization) : M (AxClient F X) ContourCall :=
  if (length (_varying_parameters self) <? 2)%nat then
    raise (mkExn ValueError
      ("Cannot plot contour because there are less than 2 varying "
       ++ "parameters."))
  else
    let* param_x := default_name param_x (_varying_parameters self) 0 VaryingParameter.name in
    let* param_y := default_name param_y (_varying_parameters self) 1 VaryingParameter.name in
    let* objective := default_name objective (objectives self) 0 Objective.name in
    fit_model xops ;;;
    let* slice_values := default_slice_values self objective slice_values in
    let* fitted := gets (fun c => _model (generation_strategy c)) in
    ret (mkContourCall fitted param_x param_y objective slice_values).

End MoreMethods.

Arguments AxExtraOps : clear implicits.
Arguments SliceCall : clear implicits.
Arguments ContourCall : clear implicits.

(** The reference client, continued. *)
Module RefExtra.

Definition ref_new_ax_client (steps : list (GenerationStep unit))
    : result RefClient.Client :=
  match steps with
  | [] => Raise (mkExn ValueError "no generation steps")
  | st :: rest =>
      Ok (mkClient (mkStrategy [] st rest None) []
            (RefClient.fresh_experiment true))
  end.

(** The search space maps each name to the spec declared last under it. *)
Definition ref_make_search_space (parameters : list AxParameter)
    : result (gmap string AxParameter) :=
  Ok (fold_left (fun acc p => <[p_name p := p]> acc) parameters ∅).

Definition ref_fit_model : M RefClient.Client unit :=
  modify (fun c =>
    set_generation_strategy (set_model (Some tt) (generation_strategy c)) c).

Definition xops : AxExtraOps unit RefClient.Experiment Z AxParameter :=
  mkExtraOps
    ref_new_ax_client
    (fun _ _ _ _ => ret tt)
    (RefClient.mark RefClient.E_ABANDONED)
    (RefClient.mark RefClient.E_FAILED)
    (fun _ => ret tt)
    ref_fit_model
    ref_make_search_space
    (fun _ => ret tt).

(** A client that refuses to attach an empty parameterization. *)
Definition strict_attach (params : TParameterization)
    : M RefClient.Client (TParameterization * Z) :=
  if decide (size params = 0%nat)
  then raise (mkExn ValueError "parameterization is empty")
  else RefClient.add_trial false params.

Definition strict_ops : AxClientOps unit RefClient.Experiment Z :=
  mkOps
    (get_next_trial_fixed RefClient.ops)
    (get_next_trial RefClient.ops)
    strict_attach
    (get_trial RefClient.ops)
    (complete_trial RefClient.ops)
    (mark_abandoned RefClient.ops)
    (mark_failed RefClient.ops)
    (_maybe_move_to_next_step RefClient.ops)
    (get_best_parameters RefClient.ops)
    (get_pareto_optimal_parameters RefClient.ops).

(** The steps of a subclass: Sobol, then a model. *)
Definition sobol_then_model (n_init : Z) (kwargs : BoModelKwargs)
    : result (list (GenerationStep unit)) :=
  Ok [RefClient.sobol_step n_init; RefClient.model_step].

Definition attributes (dir : string) (n : Z) : GeneratorAttributes :=
  mkAttributes "cpu" false None None dir n.

(** An evaluated external trial that carries no parameter at all. *)
Definition empty_trial (st : TrialStatus) : Trial.t :=
  Trial.mk [] [] None st [Examples.f_evaluation 3] [].

End RefExtra.

(** ** The answers of the engine to a call of [_ask] *)

Section AskAnswers.

Context {F X H : Type}.
Variable ops : AxClientOps F X H.

(** The engine refused the request for the next point of [_ask] with the
    exception [e]: at once with an exception that is not a [TypeError],
    or on the request without fixed features after a [TypeError]. *)
Definition engine_refused (self : AxServiceGenerator) (c : AxClient F X)
    (e : Exn) (c' : AxClient F X) : Prop :=
  (get_next_trial_fixed ops (_fixed_features self) c = (c', Raise e)
   ∧ exn_class e ≠ TypeError)
  ∨ ∃ c1 e1,
      get_next_trial_fixed ops (_fixed_features self) c = (c1, Raise e1)
      ∧ exn_class e1 = TypeError
      ∧ get_next_trial ops c1 = (c', Raise e).

(** [engine_answers self c answers c']: asked again and again from the
    client state [c], the engine gave the [answers], one after the other,
    and was left in the state [c']. *)
Inductive engine_answers (self : AxServiceGenerator)
    : AxClient F X -> list (TParameterization * Z) -> AxClient F X -> Prop :=
| engine_answers_nil c : engine_answers self c [] c
| engine_answers_cons c c1 c' parameters i answers :
    engine_answered ops self c parameters i c1 ->
    engine_answers self c1 answers c' ->
    engine_answers self c ((parameters, i) :: answers) c'.

End AskAnswers.

(** The trials, each filled from the answer at its position. *)
Definition fill_all (self : AxServiceGenerator) (trials : list Trial.t)
    (answers : list (TParameterization * Z)) : list Trial.t :=
  zip_with (fun trial answer => filled self answer.1 answer.2 trial)
    trials answers.

(** Inputs for the examples on the reference client. *)
Module RefCases.

(** A generator as its construction leaves it: the fixed features are
    the overlay of its (two, not fixed) varying parameters. *)
Definition generator : AxServiceGenerator :=
  (_create_ax_parameters (Examples.generator [Examples.x0; Examples.x1])).1.

(** A pending trial of that generator. *)
Definition pending_trial : Trial.t :=
  Trial.mk [Examples.x0; Examples.x1] [] None PENDING [] [].

(** The client after one trial was asked for: the engine trial 0 is
    running. *)
Definition asked_client : RefClient.Client :=
  (get_next_trial_fixed RefClient.ops None (RefClient.fresh_client true 4)).1.

(** That trial, evaluated. *)
Definition asked_trial : Trial.t :=
  Trial.mk [Examples.x0; Examples.x1] [PyFloat (1 # 2); PyFloat 3] (Some 0)
    COMPLETED [Examples.f_evaluation 3] [].

(** A failed trial that carries an id unknown to the client. *)
Definition stray_failed_trial : Trial.t :=
  Trial.mk [Examples.x0; Examples.x1] [PyFloat 1; PyFloat 2] (Some 7)
    FAILED [] [].

(** No completed or failed trial of the list has an engine trial that is
    still running in the client. *)
Definition none_left_pending (trials : list Trial.t) (c : RefClient.Client)
    : Prop :=
  ∀ trial i entry,
    trial ∈ trials →
    Trial.status trial = COMPLETED ∨ Trial.status trial = FAILED →
    Trial.ax_trial_id trial = Some i →
    RefClient.lookup_trial i (RefClient.trials (experiment_state c)) = Some entry →
    entry.2 ≠ RefClient.E_RUNNING.

End RefCases.

(** ** Monad facts and proof automation *)

Open Scope list_scope.

Ltac py_unfold :=
  unfold Py.bind, Py.ret, Py.raise, Py.gets, Py.modify, Py.try_except,
    Py.try_finally in *.

Ltac destruct_match :=
  match goal with
  | |- context [match ?x with _ => _ end] => destruct x eqn:?
  end.

Lemma ExnClass_eqb_eq a b : ExnClass_eqb a b = true <-> a = b.
Proof. destruct a, b; simpl; split; intros; congruence. Qed.

Lemma ExnClass_eqb_refl a : ExnClass_eqb a a = true.
Proof. by destruct a. Qed.

Lemma ExnClass_eqb_neq a b : a ≠ b → ExnClass_eqb a b = false.
Proof.
  intros Hne. destruct (ExnClass_eqb a b) eqn:E; [|done].
  by apply ExnClass_eqb_eq in E.
Qed.

(** A [for] loop stops at the first iteration that raises. *)
Lemma for_each_cons {S A} (x : A) (xs : list A) (body : A → M S unit) (s : S) :
  for_each (x :: xs) body s =
  match body x s with
  | (s', Ok _) => for_each xs body s'
  | (s', Raise e) => (s', Raise e)
  end.
Proof. reflexivity. Qed.

Lemma for_each_ok_iterations {S A} (xs : list A) (body : A → M S unit) (s s' : S) :
  for_each xs body s = (s', Ok tt) ↔ iterations body xs s s'.
Proof.
  revert s. induction xs as [|x xs IH]; intros s.
  - split.
    + intros [= <-]. constructor.
    + inversion 1; by subst.
  - rewrite for_each_cons. split.
    + destruct (body x s) as [s1 [[]|e]] eqn:Hbody; [|done].
      intros Hrest. econstructor; [done|]. by apply IH.
    + inversion 1 as [|? ? ? s1 ? Hbody Hrest]; subst.
      rewrite Hbody. by apply IH.
Qed.

(** The entry left under a key by a loop of conditional dict assignments
    is the one written by the last iteration that assigned the key. *)
Lemma fold_insert_lookup {A V} (cond : A → bool) (key : A → string) (val : A → V)
    (l : list A) (m0 : gmap string V) (n : string) :
  fold_left (fun acc a => if cond a then <[key a := val a]> acc else acc) l m0 !! n
  = match last (filter (fun a => cond a = true ∧ key a = n) l) with
    | Some a => Some (val a)
    | None => m0 !! n
    end.
Proof.
  revert m0. induction l as [|a l IH]; intros m0; [done|].
  cbn [fold_left]. rewrite IH. rewrite filter_cons.
  destruct (decide (cond a = true ∧ key a = n)) as [[Hc Hk]|Hn].
  - rewrite Hc, last_cons.
    destruct (last _); [done|]. subst n. by rewrite lookup_insert_eq.
  - destruct (last _); [done|].
    destruct (cond a) eqn:Hc; [|done].
    rewrite lookup_insert_ne; [done|]. intros Hk. by apply Hn.
Qed.

(** ** The search-space translator *)

Section Translator.

Import VaryingParameter.

Lemma value_type_of_range var :
  range_dtype (dtype var) = true →
  value_type_of (dtype var) = Ok (p_value_type (range_spec var)).
Proof. unfold range_spec. by destruct (dtype var). Qed.

Lemma value_type_of_other k :
  range_dtype k = false →
  value_type_of k = Raise (mkExn ValueError dtype_error_message).
Proof. by destruct k. Qed.

Lemma create_ax_parameters_loop_ok vars parameters fixed_parameters :
  Forall (fun var => range_dtype (dtype var) = true) vars →
  create_ax_parameters_loop vars parameters fixed_parameters
  = Ok ((parameters ++ map range_spec vars)%list,
        fold_left add_fixed vars fixed_parameters).
Proof.
  intros Hall. revert parameters fixed_parameters.
  induction Hall as [|var vars Hvar _ IH]; intros parameters fixed_parameters.
  - cbn. by rewrite app_nil_r.
  - cbn [create_ax_parameters_loop]. rewrite (value_type_of_range _ Hvar).
    rewrite IH. cbn [map fold_left]. by rewrite <- app_assoc.
Qed.

Lemma create_ax_parameters_loop_bad vars parameters fixed_parameters :
  Exists (fun var => range_dtype (dtype var) = false) vars →
  create_ax_parameters_loop vars parameters fixed_parameters
  = Raise (mkExn ValueError dtype_error_message).
Proof.
  intros Hex. revert parameters fixed_parameters.
  induction Hex as [var vars Hvar|var vars _ IH]; intros parameters fixed_parameters.
  - cbn [create_ax_parameters_loop]. by rewrite (value_type_of_other _ Hvar).
  - cbn [create_ax_parameters_loop].
    destruct (value_type_of (dtype var)) as [vt|e] eqn:E.
    + apply IH.
    + destruct (dtype var); cbn in E; congruence.
Qed.

Lemma fixed_overlay_lookup vars n :
  fold_left add_fixed vars ∅ !! n
  = default_value <$> last (fixed_named n vars).
Proof.
  unfold add_fixed, fixed_named.
  rewrite (fold_insert_lookup is_fixed name default_value).
  rewrite lookup_empty. by destruct (last _).
Qed.

(** C7, amended.  When every dtype is of kind float or int, the
    translator returns one range spec per varying parameter, in order,
    with bounds [lower_bound, upper_bound] and the declared fidelity
    attributes, and stores as fixed features the dict that maps the name
    of each fixed parameter to its default value (the last one declared
    under a name wins).  When some dtype is of another kind it raises a
    [ValueError] and leaves the fixed features as they were. *)
Theorem create_ax_parameters_spec (self : AxServiceGenerator) :
  (Forall (fun var => range_dtype (dtype var) = true) (_varying_parameters self) →
   ∃ overlay,
     _create_ax_parameters self
     = (set_fixed_features (Some overlay) self,
        Ok (map range_spec (_varying_parameters self)))
     ∧ ∀ n, overlay !! n
            = default_value <$> last (fixed_named n (_varying_parameters self)))
  ∧ (Exists (fun var => range_dtype (dtype var) = false) (_varying_parameters self) →
     ∃ msg, _create_ax_parameters self = (self, Raise (mkExn ValueError msg))).
Proof.
  split.
  - intros Hall. exists (fold_left add_fixed (_varying_parameters self) ∅).
    split; [|apply fixed_overlay_lookup].
    unfold _create_ax_parameters.
    by rewrite (create_ax_parameters_loop_ok _ [] ∅ Hall).
  - intros Hex. exists dtype_error_message.
    unfold _create_ax_parameters.
    by rewrite (create_ax_parameters_loop_bad _ [] ∅ Hex).
Qed.

(** The translator on two float parameters and a fixed int parameter. *)
Lemma create_ax_parameters_spec_witness :
  let self := Examples.generator
    [Examples.x0; Examples.fixed_int_parameter "n" 1 9 4; Examples.x1] in
  ∃ overlay,
    _create_ax_parameters self
    = (set_fixed_features (Some overlay) self,
       Ok (map range_spec (_varying_parameters self)))
    ∧ ∀ n, overlay !! n
           = default_value <$> last (fixed_named n (_varying_parameters self)).
Proof.
  intros self. apply (proj1 (create_ax_parameters_spec self)).
  repeat constructor.
Defined.

(** C7, as stated, fails: the error raised for a parameter [energy] of a
    boolean dtype does not name that parameter. *)
Lemma create_ax_parameters_error_is_anonymous :
  let self := Examples.generator [Examples.x0; Examples.bool_parameter "energy"] in
  _create_ax_parameters self = (self, Raise (mkExn ValueError dtype_error_message))
  ∧ ¬ ∃ e, (_create_ax_parameters self).2 = Raise e
           ∧ mentions "energy" (exn_msg e) = true.
Proof.
  intros self. split; [reflexivity|].
  intros (e & He & Hm). cbn in He. injection He as <-.
  vm_compute in Hm. discriminate.
Qed.

End Translator.

(** ** The best-value selector *)

Section ArgScan.

(** [better x y]: [x] replaces [y] as the extremal value. *)
Variable better : Q → Q → bool.
Hypothesis better_asym : ∀ x y, better x y = true → better y x = false.
Hypothesis better_cotrans :
  ∀ x y z, better x z = true → better x y = true ∨ better y z = true.

Lemma better_irrefl x : better x x = false.
Proof.
  destruct (better x x) eqn:E; [|done].
  by rewrite (better_asym _ _ E) in E.
Qed.

(** The scan returns the first index of an extremal element: [seen] are
    the elements already scanned, of which [best] at [best_i] is the first
    extremal one. *)
Lemma arg_scan_first_extremal (l seen : list Q) (best_i : nat) (best : Q) :
  seen !! best_i = Some best →
  (∀ j w, seen !! j = Some w → better w best = false) →
  (∀ j w, (j < best_i)%nat → seen !! j = Some w → better best w = true) →
  ∃ v,
    (seen ++ l) !! arg_scan better best_i best (length seen) l = Some v
    ∧ (∀ j w, (seen ++ l) !! j = Some w → better w v = false)
    ∧ (∀ j w, (j < arg_scan better best_i best (length seen) l)%nat →
              (seen ++ l) !! j = Some w → better v w = true).
Proof.
  revert seen best_i best.
  induction l as [|x l IH]; intros seen best_i best Hbest Hmin Hfirst.
  - cbn [arg_scan]. rewrite app_nil_r. eauto.
  - cbn [arg_scan].
    assert (Hlen : S (length seen) = length (seen ++ [x])).
    { rewrite length_app. cbn. lia. }
    rewrite Hlen, (cons_middle x seen l), app_assoc.
    assert (Hin : (best_i < length seen)%nat) by (by eapply lookup_lt_Some).
    destruct (better x best) eqn:Hx.
    + assert (Hbeats : ∀ j w, seen !! j = Some w → better x w = true).
      { intros j w Hj. destruct (better_cotrans x w best Hx) as [|Hw]; [done|].
        by rewrite (Hmin j w Hj) in Hw. }
      apply IH.
      * by rewrite lookup_app_r, Nat.sub_diag.
      * intros j w Hj. apply lookup_snoc_Some in Hj as [[_ Hj]|[_ <-]].
        -- apply better_asym. by eapply Hbeats.
        -- apply better_irrefl.
      * intros j w Hlt Hj. apply lookup_snoc_Some in Hj as [[_ Hj]|[-> _]]; [|lia].
        by eapply Hbeats.
    + apply IH.
      * by rewrite lookup_app_l.
      * intros j w Hj. apply lookup_snoc_Some in Hj as [[_ Hj]|[_ <-]]; [|done].
        by eapply Hmin.
      * intros j w Hlt Hj. apply lookup_snoc_Some in Hj as [[_ Hj]|[-> _]]; [|lia].
        by eapply Hfirst.
Qed.

End ArgScan.

Lemma Qltb_lt x y : Qltb x y = true ↔ Qlt x y.
Proof.
  unfold Qltb. rewrite negb_true_iff. split.
  - intros Hle. apply Qnot_le_lt. intros Hyx.
    apply Qle_bool_iff in Hyx. congruence.
  - intros Hlt. destruct (Qle_bool y x) eqn:E; [|done].
    apply Qle_bool_iff in E. by apply Qlt_not_le in Hlt.
Qed.

Lemma Qltb_ge x y : Qltb x y = false ↔ Qle y x.
Proof.
  unfold Qltb. rewrite negb_false_iff. apply Qle_bool_iff.
Qed.

Lemma Qltb_asym x y : Qltb x y = true → Qltb y x = false.
Proof. rewrite Qltb_lt, Qltb_ge. apply Qlt_le_weak. Qed.

Lemma Qltb_cotrans x y z :
  Qltb x z = true → Qltb x y = true ∨ Qltb y z = true.
Proof.
  intros Hxz. destruct (Qltb x y) eqn:Hxy; [by left|right].
  apply Qltb_lt. apply Qltb_lt in Hxz. apply Qltb_ge in Hxy.
  by eapply Qle_lt_trans.
Qed.

(** [np.argmin]: the first index of a minimal element. *)
Lemma np_argmin_first_minimum (l : list Q) :
  l ≠ [] →
  ∃ k v,
    np_argmin l = Ok k ∧ l !! k = Some v
    ∧ (∀ j w, l !! j = Some w → Qle v w)
    ∧ (∀ j w, (j < k)%nat → l !! j = Some w → Qlt v w).
Proof.
  destruct l as [|x l]; [done|]. intros _.
  destruct (arg_scan_first_extremal Qltb Qltb_asym Qltb_cotrans l [x] 0 x)
    as (v & Hk & Hmin & Hfirst); [done| |lia|].
  { intros [|j] w Hj; [|done]. injection Hj as <-.
    apply better_irrefl, Qltb_asym. }
  exists (arg_scan Qltb 0 x 1 l), v. split; [done|]. split; [done|]. split.
  - intros j w Hj. apply Qltb_ge. by eapply Hmin.
  - intros j w Hlt Hj. apply Qltb_lt. by eapply Hfirst.
Qed.

(** [np.argmax]: the first index of a maximal element. *)
Lemma np_argmax_first_maximum (l : list Q) :
  l ≠ [] →
  ∃ k v,
    np_argmax l = Ok k ∧ l !! k = Some v
    ∧ (∀ j w, l !! j = Some w → Qle w v)
    ∧ (∀ j w, (j < k)%nat → l !! j = Some w → Qlt w v).
Proof.
  destruct l as [|x l]; [done|]. intros _.
  destruct (arg_scan_first_extremal (fun a b => Qltb b a)
              (fun a b => Qltb_asym b a)
              (fun a b c Hac =>
                 match Qltb_cotrans c b a Hac with
                 | or_introl Hl => or_intror Hl
                 | or_intror Hr => or_introl Hr
                 end)
              l [x] 0 x)
    as (v & Hk & Hmax & Hfirst); [done| |lia|].
  { intros [|j] w Hj; [|done]. injection Hj as <-.
    apply (better_irrefl Qltb Qltb_asym). }
  exists (arg_scan (fun a b => Qltb b a) 0 x 1 l), v.
  split; [done|]. split; [done|]. split.
  - intros j w Hj. apply Qltb_ge. by eapply Hmax.
  - intros j w Hlt Hj. apply Qltb_lt. by eapply Hfirst.
Qed.

Lemma list_index_Some (x : string) (names : list string) (i : nat) :
  list_index x names = Some i → names !! i = Some x.
Proof.
  revert i. induction names as [|y names IH]; intros i; [done|].
  cbn [list_index]. destruct (String.eqb y x) eqn:E.
  - intros [= <-]. apply String.eqb_eq in E. by subst.
  - destruct (list_index x names) as [k|]; [|done].
    intros [= <-]. by apply IH.
Qed.

Lemma list_index_None (x : string) (names : list string) :
  list_index x names = None ↔ x ∉ names.
Proof.
  induction names as [|y names IH]; cbn [list_index].
  - split; [intros _; apply not_elem_of_nil|done].
  - rewrite not_elem_of_cons. destruct (String.eqb y x) eqn:E.
    + apply String.eqb_eq in E. split; [done|]. intros [Hne _]. by subst.
    + apply String.eqb_neq in E. destruct (list_index x names); cbn.
      * split; [done|]. intros [_ Hn]. by apply IH in Hn.
      * split; [|done]. intros _. split; [done|]. by apply IH.
Qed.

Section Selector.

Context {F X H : Type}.
Variable ops : AxClientOps F X H.

Implicit Type self : AxServiceGenerator.
Implicit Type c : AxClient F X.
Implicit Type pp : list (Z * (TParameterization * TModelPredictArm)).

(** The objective values are read point by point, in iteration order. *)
Lemma pareto_objective_values_total (n : string) pp :
  Forall (fun item => is_Some (item.2.2.1 !! n)) pp →
  ∃ vs, pareto_objective_values n pp = Ok vs
        ∧ Forall2 (fun item v => item.2.2.1 !! n = Some v) pp vs.
Proof.
  induction 1 as [|[i [vals [objs covs]]] pp [v Hv] _ (vs & Hvs & Hall)].
  - exists []. by split.
  - exists (v :: vs). cbn in Hv. cbn [pareto_objective_values].
    rewrite Hv, Hvs. split; [done|]. by constructor.
Qed.

Lemma pareto_objective_values_missing (n : string) pp :
  Exists (fun item => item.2.2.1 !! n = None) pp →
  pareto_objective_values n pp = Raise (mkExn KeyError n).
Proof.
  induction pp as [|[i [vals [objs covs]]] pp IH]; intros Hex.
  - by apply Exists_nil in Hex.
  - cbn [pareto_objective_values]. destruct (objs !! n) as [v|] eqn:E; [|done].
    apply Exists_cons in Hex as [Hex|Hex]; [cbn in Hex; congruence|].
    by rewrite (IH Hex).
Qed.

(** The requested name selects the first objective that carries it. *)
Lemma requested_objective self (name : string) (i : nat) :
  list_index name (map Objective.name (objectives self)) = Some i →
  ∃ objective, objectives self !! i = Some objective
               ∧ Objective.name objective = name.
Proof.
  intros Hi. apply list_index_Some in Hi.
  rewrite list_lookup_fmap in Hi.
  destruct (objectives self !! i) as [objective|]; [|done].
  exists objective. split; [done|]. by injection Hi.
Qed.

(** With one objective, the absence of a best point is returned as
    [None]. *)
Lemma best_values_single_objective self (name : string) c c' best :
  name ∈ map Objective.name (objectives self) →
  (length (objectives self) ≤ 1)%nat →
  get_best_parameters ops c = (c', Ok best) →
  _get_best_values ops self name c = (c', Ok (fst <$> best)).
Proof.
  intros Hin Hone Hbest. unfold _get_best_values.
  destruct (list_index name _) as [i|] eqn:Hi; [|by apply list_index_None in Hi].
  destruct (requested_objective _ _ _ Hi) as (objective & -> & _).
  destruct (Nat.ltb_spec 1 (length (objectives self))) as [|_]; [lia|].
  py_unfold. rewrite Hbest. by destruct best as [[slice_values arm]|].
Qed.

(** A name that is not the name of an objective is refused. *)
Lemma best_values_unknown_objective self (name : string) c :
  name ∉ map Objective.name (objectives self) →
  _get_best_values ops self name c
  = (c, Raise (objective_not_found name (map Objective.name (objectives self)))).
Proof.
  intros Hin. apply list_index_None in Hin.
  unfold _get_best_values. by rewrite Hin.
Qed.

(** With several objectives, an empty Pareto set makes the selector raise
    the [ValueError] of the arg-extremum of an empty sequence. *)
Lemma best_values_empty_front self (name : string) c c' :
  name ∈ map Objective.name (objectives self) →
  (1 < length (objectives self))%nat →
  get_pareto_optimal_parameters ops c = (c', Ok []) →
  ∃ msg, _get_best_values ops self name c = (c', Raise (mkExn ValueError msg)).
Proof.
  intros Hin Hmany Hpp. unfold _get_best_values.
  destruct (list_index name _) as [i|] eqn:Hi; [|by apply list_index_None in Hi].
  destruct (requested_objective _ _ _ Hi) as (objective & -> & _).
  destruct (Nat.ltb_spec 1 (length (objectives self))) as [_|]; [|lia].
  py_unfold. rewrite Hpp. cbn.
  destruct (Objective.minimize objective); eauto.
Qed.

(** C6.  With more than one objective, the selector asks for the Pareto
    set, reads the value of the requested objective at each of its points
    and returns the parameter values of the point whose value is minimal
    when the objective is to be minimized and maximal otherwise; among
    equally good points the first one in iteration order is taken. *)
Theorem best_values_pareto_extremal self (name : string) (i : nat) c c' pp :
  (1 < length (objectives self))%nat →
  list_index name (map Objective.name (objectives self)) = Some i →
  get_pareto_optimal_parameters ops c = (c', Ok pp) →
  pp ≠ [] →
  Forall (fun item => is_Some (item.2.2.1 !! name)) pp →
  ∃ objective k item v,
    objectives self !! i = Some objective
    ∧ Objective.name objective = name
    ∧ pp !! k = Some item
    ∧ item.2.2.1 !! name = Some v
    ∧ _get_best_values ops self name c = (c', Ok (Some item.2.1))
    ∧ ∀ j other w,
        pp !! j = Some other → other.2.2.1 !! name = Some w →
        (if Objective.minimize objective then Qle v w else Qle w v)
        ∧ ((j < k)%nat →
           if Objective.minimize objective then Qlt v w else Qlt w v).
Proof.
  intros Hmany Hi Hpp Hne Hvals.
  destruct (requested_objective _ _ _ Hi) as (objective & Hobj & Hname).
  destruct (pareto_objective_values_total name pp Hvals) as (vs & Hvs & Hall).
  assert (Hvne : vs ≠ []).
  { intros ->. apply Forall2_nil_inv_r in Hall. done. }
  assert (Hsel : ∃ k v,
    (if Objective.minimize objective then np_argmin vs else np_argmax vs) = Ok k
    ∧ vs !! k = Some v
    ∧ ∀ j w, vs !! j = Some w →
        (if Objective.minimize objective then Qle v w else Qle w v)
        ∧ ((j < k)%nat →
           if Objective.minimize objective then Qlt v w else Qlt w v)).
  { destruct (Objective.minimize objective).
    - destruct (np_argmin_first_minimum vs Hvne) as (k & v & ? & ? & Hmin & Hfirst).
      exists k, v. split; [done|]. split; [done|]. intros j w Hj. split; eauto.
    - destruct (np_argmax_first_maximum vs Hvne) as (k & v & ? & ? & Hmax & Hfirst).
      exists k, v. split; [done|]. split; [done|]. intros j w Hj. split; eauto. }
  destruct Hsel as (k & v & Hk & Hv & Hext).
  destruct (Forall2_lookup_r _ _ _ _ _ Hall Hv) as (item & Hitem & Hiv).
  exists objective, k, item, v.
  do 4 (split; [done|]). split.
  - unfold _get_best_values. rewrite Hi, Hobj.
    destruct (Nat.ltb_spec 1 (length (objectives self))) as [_|]; [|lia].
    py_unfold. rewrite Hpp. unfold lift_result. rewrite Hname, Hvs, Hk.
    by rewrite list_lookup_fmap, Hitem.
  - intros j other w Hj Hw.
    destruct (Forall2_lookup_l _ _ _ _ _ Hall Hj) as (w' & Hw' & Hother).
    assert (w' = w) as -> by congruence.
    by apply Hext.
Qed.

End Selector.

(** A front of three points: the requested objective [f] is minimal at
    the second and the third point; the second is returned. *)
Lemma best_values_pareto_extremal_witness :
  let front := [Examples.pareto_point 0 (1 # 10) 5 1;
                Examples.pareto_point 1 (2 # 10) 2 3;
                Examples.pareto_point 2 (3 # 10) 2 4] in
  let c := Examples.with_front front (RefClient.fresh_client true 4) in
  ∃ objective k item v,
    objectives Examples.generator_moo !! 0%nat = Some objective
    ∧ Objective.name objective = "f"%string
    ∧ front !! k = Some item
    ∧ item.2.2.1 !! "f"%string = Some v
    ∧ _get_best_values RefClient.ops Examples.generator_moo "f" c
      = (c, Ok (Some item.2.1))
    ∧ ∀ j other w,
        front !! j = Some other → other.2.2.1 !! "f"%string = Some w →
        (if Objective.minimize objective then Qle v w else Qle w v)
        ∧ ((j < k)%nat →
           if Objective.minimize objective then Qlt v w else Qlt w v).
Proof.
  intros front c.
  apply (best_values_pareto_extremal RefClient.ops Examples.generator_moo
           "f" 0 c c front).
  - cbn. lia.
  - reflexivity.
  - reflexivity.
  - discriminate.
  - repeat constructor; cbn; by eexists.
Defined.

(** C5, at the failing input: two objectives and no completed trial, so
    that the Pareto set of the client is empty.  The query raises instead
    of returning [None]. *)
Lemma best_values_no_trials_moo_raises :
  let c := RefClient.fresh_client true 4 in
  RefClient.trials (experiment_state c) = []
  ∧ _get_best_values RefClient.ops Examples.generator_moo "f" c
    = (c, Raise (mkExn ValueError "attempt to get argmin of an empty sequence")).
Proof. split; reflexivity. Qed.

(** With one objective and no completed trial the same query returns
    [None]. *)
Lemma best_values_no_trials_single_objective :
  let c := RefClient.fresh_client true 4 in
  _get_best_values RefClient.ops (Examples.generator [Examples.x0]) "f" c
  = (c, Ok None).
Proof. reflexivity. Qed.

(** ** Ask *)

Section Ask.

Context {F X H : Type}.
Variable ops : AxClientOps F X H.

Implicit Type self : AxServiceGenerator.
Implicit Type trial : Trial.t.
Implicit Type c : AxClient F X.

(** The two assignments of an iteration, once the engine has answered. *)
Lemma ask_body_after_request self trial c s parameters i :
  request_next_trial ops self (mkAsk c trial) = (s, Ok (parameters, i)) →
  _ask_body ops self (mkAsk c trial)
  = (mkAsk (ask_client s) (filled self parameters i (ask_trial s)), Ok tt).
Proof. intros Hreq. unfold _ask_body. py_unfold. by rewrite Hreq. Qed.

(** The request touches the client only. *)
Lemma request_next_trial_inv self trial c s r :
  request_next_trial ops self (mkAsk c trial) = (s, r) →
  ask_trial s = trial
  ∧ match r with
    | Ok (parameters, i) => engine_answered ops self c parameters i (ask_client s)
    | Raise _ => True
    end.
Proof.
  unfold request_next_trial, ask_call, engine_answered. py_unfold. cbn.
  destruct (get_next_trial_fixed ops (_fixed_features self) c)
    as [c1 [[parameters i]|e]] eqn:Hfixed.
  - intros [= <- <-]. cbn. by split; [|left].
  - destruct (ExnClass_eqb (exn_class e) TypeError) eqn:Hcls.
    + apply ExnClass_eqb_eq in Hcls. cbn.
      destruct (get_next_trial ops c1) as [c2 [[parameters i]|e']] eqn:Hplain.
      * intros [= <- <-]. cbn. split; [done|]. right. by exists c1, e.
      * by intros [= <- <-].
    + by intros [= <- <-].
Qed.

Lemma ask_body_filled self trial c c' parameters i :
  engine_answered ops self c parameters i c' →
  _ask_body ops self (mkAsk c trial)
  = (mkAsk c' (filled self parameters i trial), Ok tt).
Proof.
  intros Hans.
  assert (Hreq : request_next_trial ops self (mkAsk c trial)
                 = (mkAsk c' trial, Ok (parameters, i))).
  { unfold request_next_trial, ask_call. py_unfold. cbn.
    destruct Hans as [->|(c1 & e & -> & Hcls & Hplain)]; [done|].
    rewrite Hcls. cbn. by rewrite Hplain. }
  by rewrite (ask_body_after_request _ _ _ _ _ _ Hreq).
Qed.

(** An iteration either fills the trial from an answer of the engine, or
    raises and leaves the trial as it was. *)
Lemma ask_body_inv self trial c s r :
  _ask_body ops self (mkAsk c trial) = (s, r) →
  match r with
  | Ok _ =>
      ∃ parameters i,
        engine_answered ops self c parameters i (ask_client s)
        ∧ ask_trial s = filled self parameters i trial
  | Raise _ => ask_trial s = trial
  end.
Proof.
  destruct (request_next_trial ops self (mkAsk c trial)) as [s1 r1] eqn:Hreq.
  destruct (request_next_trial_inv _ _ _ _ _ Hreq) as [Htrial Hans].
  destruct r1 as [[parameters i]|e].
  - rewrite (ask_body_after_request _ _ _ _ _ _ Hreq). intros [= <- <-].
    exists parameters, i. cbn. by rewrite Htrial.
  - unfold _ask_body. py_unfold. rewrite Hreq. by intros [= <- <-].
Qed.

Lemma filled_shape self parameters i trial :
  Trial.ax_trial_id (filled self parameters i trial) = Some i
  ∧ length (Trial.parameter_values (filled self parameters i trial))
    = length (_varying_parameters self)
  ∧ ∀ (k : nat) var,
      _varying_parameters self !! k = Some var →
      Trial.parameter_values (filled self parameters i trial) !! k
      = Some (dict_get parameters (VaryingParameter.name var)).
Proof.
  cbn. split; [done|]. split; [by rewrite length_map|].
  intros k var Hk.
  change (map ?f ?l) with (f <$> l). by rewrite list_lookup_fmap, Hk.
Qed.

(** A request that the engine refuses raises, the trial being as it was. *)
Lemma ask_body_refused self trial c c' e :
  engine_refused ops self c e c' →
  _ask_body ops self (mkAsk c trial) = (mkAsk c' trial, Raise e).
Proof.
  intros Href. unfold _ask_body, request_next_trial, ask_call. py_unfold. cbn.
  destruct Href as [[-> Hcls]|(c1 & e1 & -> & Hcls & Hplain)].
  - by rewrite (ExnClass_eqb_neq _ _ Hcls).
  - rewrite Hcls. cbn. by rewrite Hplain.
Qed.

Lemma ask_body_raise_inv self trial c s e :
  _ask_body ops self (mkAsk c trial) = (s, Raise e) →
  engine_refused ops self c e (ask_client s) ∧ ask_trial s = trial.
Proof.
  unfold _ask_body, request_next_trial, ask_call, engine_refused.
  py_unfold. cbn.
  destruct (get_next_trial_fixed ops (_fixed_features self) c)
    as [c1 [[parameters i]|e1]] eqn:Hfixed; [done|].
  destruct (ExnClass_eqb (exn_class e1) TypeError) eqn:Hcls.
  - apply ExnClass_eqb_eq in Hcls. cbn.
    destruct (get_next_trial ops c1) as [c2 [[parameters i]|e2]] eqn:Hplain;
      [done|].
    intros [= <- <-]. split; [|done]. right. by exists c1, e1.
  - intros [= <- <-]. split; [|done]. left. split; [done|].
    intros Heq. apply ExnClass_eqb_eq in Heq. congruence.
Qed.

(** When the engine answers every request, [_ask] returns, each trial being
    filled from the answer at its position. *)
Lemma ask_answered self (trials : list Trial.t)
    (answers : list (TParameterization * Z)) c c' :
  length answers = length trials →
  engine_answers ops self c answers c' →
  _ask ops self trials c = (c', fill_all self trials answers, Ok tt).
Proof.
  revert answers c.
  induction trials as [|trial trials IH];
    intros [|[parameters i] answers] c Hlen Hans; try done.
  - by inversion Hans; subst.
  - inversion Hans as [|? c1 ? ? ? ? Hfirst Hrest]; subst.
    cbn [_ask]. rewrite (ask_body_filled _ _ _ _ _ _ Hfirst). cbn.
    rewrite (IH answers c1); [done| |done]. by injection Hlen.
Qed.

Lemma ask_ok_inv self (trials trials' : list Trial.t) c c' :
  _ask ops self trials c = (c', trials', Ok tt) →
  ∃ answers,
    length answers = length trials
    ∧ engine_answers ops self c answers c'
    ∧ trials' = fill_all self trials answers.
Proof.
  revert trials' c.
  induction trials as [|trial trials IH]; intros trials' c.
  - cbn. intros [= <- <-]. exists []. split; [done|]. split; [constructor|done].
  - cbn [_ask].
    destruct (_ask_body ops self (mkAsk c trial)) as [s rb] eqn:Hbody.
    pose proof (ask_body_inv _ _ _ _ _ Hbody) as Hinv.
    destruct rb as [[]|e]; [|done].
    destruct Hinv as (parameters & i & Hans & Hfilled).
    destruct (_ask ops self trials (ask_client s)) as [[c2 rest'] r2] eqn:Hrest.
    intros [= <- <- ->].
    destruct (IH _ _ Hrest) as (answers & Hlen & Hchain & ->).
    exists ((parameters, i) :: answers). split; [cbn; by rewrite Hlen|].
    split; [by econstructor|]. cbn. by rewrite Hfilled.
Qed.

(** When the engine refuses a request, [_ask] stops there and raises: the
    trials before are filled, the failing one and the ones after it are as
    they were passed. *)
Lemma ask_refused self (before after : list Trial.t) trial
    (answers : list (TParameterization * Z)) c c1 c' e :
  length answers = length before →
  engine_answers ops self c answers c1 →
  engine_refused ops self c1 e c' →
  _ask ops self (before ++ trial :: after) c
  = (c', fill_all self before answers ++ trial :: after, Raise e).
Proof.
  revert answers c.
  induction before as [|first before IH];
    intros [|[parameters i] answers] c Hlen Hans Href; try done.
  - inversion Hans; subst. cbn [app _ask].
    by rewrite (ask_body_refused _ _ _ _ _ Href).
  - inversion Hans as [|? c0 ? ? ? ? Hfirst Hrest]; subst.
    cbn [app _ask]. rewrite (ask_body_filled _ _ _ _ _ _ Hfirst). cbn.
    rewrite (IH answers c0); [done| |done|done]. by injection Hlen.
Qed.

Lemma ask_raise_inv self (trials trials' : list Trial.t) c c' e :
  _ask ops self trials c = (c', trials', Raise e) →
  ∃ before trial after answers c1,
    trials = before ++ trial :: after
    ∧ length answers = length before
    ∧ engine_answers ops self c answers c1
    ∧ engine_refused ops self c1 e c'
    ∧ trials' = fill_all self before answers ++ trial :: after.
Proof.
  revert trials' c.
  induction trials as [|trial trials IH]; intros trials' c; [done|].
  cbn [_ask].
  destruct (_ask_body ops self (mkAsk c trial)) as [s rb] eqn:Hbody.
  destruct rb as [[]|e0].
  - destruct (ask_body_inv _ _ _ _ _ Hbody) as (parameters & i & Hans & Hfilled).
    destruct (_ask ops self trials (ask_client s)) as [[c2 rest'] r2] eqn:Hrest.
    intros [= <- <- ->].
    destruct (IH _ _ Hrest)
      as (before & failing & after & answers & c1 & -> & Hlen & Hchain & Href & ->).
    exists (trial :: before), failing, after, ((parameters, i) :: answers), c1.
    split; [done|]. split; [cbn; by rewrite Hlen|].
    split; [by econstructor|]. split; [done|]. cbn. by rewrite Hfilled.
  - intros [= <- <- <-].
    destruct (ask_body_raise_inv _ _ _ _ _ Hbody) as [Href Htrial].
    exists [], trial, trials, [], c.
    split; [done|]. split; [done|]. split; [constructor|].
    split; [done|]. cbn. by rewrite Htrial.
Qed.

(** C4.  [_ask] returns exactly when the engine answers the request of
    every trial of the list, asked one after the other; each of the N
    trials is then the trial passed, filled from the answer at its
    position: it carries the engine trial id of that answer and one value
    per varying parameter, read from the returned map in declaration
    order.  [_ask] raises exactly when the engine refuses a request: the
    call stops there, the trials before the failing one are filled, and
    the failing trial and the ones after it are as they were passed. *)
Theorem ask_fills_every_trial self (trials : list Trial.t) c :
  (∀ c' trials',
     _ask ops self trials c = (c', trials', Ok tt)
     ↔ ∃ answers,
         length answers = length trials
         ∧ engine_answers ops self c answers c'
         ∧ trials' = fill_all self trials answers)
  ∧ (∀ c' trials' e,
       _ask ops self trials c = (c', trials', Raise e)
       ↔ ∃ before trial after answers c1,
           trials = before ++ trial :: after
           ∧ length answers = length before
           ∧ engine_answers ops self c answers c1
           ∧ engine_refused ops self c1 e c'
           ∧ trials' = fill_all self before answers ++ trial :: after)
  ∧ (∀ answers (k : nat) trial',
       fill_all self trials answers !! k = Some trial' →
       ∃ trial parameters i,
         trials !! k = Some trial
         ∧ answers !! k = Some (parameters, i)
         ∧ trial' = filled self parameters i trial
         ∧ Trial.ax_trial_id trial' = Some i
         ∧ Trial.parameter_values trial'
           = map (fun var => dict_get parameters (VaryingParameter.name var))
               (_varying_parameters self)
         ∧ length (Trial.parameter_values trial')
           = length (_varying_parameters self)).
Proof.
  split; [|split].
  - intros c' trials'. split.
    + apply ask_ok_inv.
    + intros (answers & Hlen & Hans & ->). by apply ask_answered.
  - intros c' trials' e. split.
    + apply ask_raise_inv.
    + intros (before & trial & after & answers & c1 & -> & Hlen & Hans & Href & ->).
      by eapply ask_refused.
  - intros answers k trial' Hk. unfold fill_all in Hk.
    apply lookup_zip_with_Some in Hk as (trial & [parameters i] & -> & Htrial & Hans).
    exists trial, parameters, i. do 5 (split; [done|]).
    cbn. by rewrite length_map.
Qed.

(** C8.  When the request with the fixed features raises a [TypeError],
    the same iteration asks again without them, and the outcome of the
    iteration is the outcome of that second request: the first error is
    not passed on to the caller. *)
Theorem ask_falls_back_on_type_error self trial c c1 e :
  get_next_trial_fixed ops (_fixed_features self) c = (c1, Raise e) →
  exn_class e = TypeError →
  _ask_body ops self (mkAsk c trial)
  = match get_next_trial ops c1 with
    | (c2, Ok (parameters, i)) =>
        (mkAsk c2 (filled self parameters i trial), Ok tt)
    | (c2, Raise e') => (mkAsk c2 trial, Raise e')
    end.
Proof.
  intros Hfixed Hcls.
  destruct (get_next_trial ops c1) as [c2 [[parameters i]|e']] eqn:Hplain.
  - apply ask_body_filled. right. by exists c1, e.
  - unfold _ask_body, request_next_trial, ask_call. py_unfold. cbn.
    rewrite Hfixed, Hcls. cbn. by rewrite Hplain.
Qed.

(** C10.  When the map returned by the engine lacks the name of a varying
    parameter, the iteration still succeeds: it writes [None] at the
    position of that parameter and records the engine trial id. *)
Theorem ask_missing_name_gives_none self trial c c' parameters i (k : nat) var :
  engine_answered ops self c parameters i c' →
  _varying_parameters self !! k = Some var →
  parameters !! VaryingParameter.name var = None →
  ∃ s,
    _ask_body ops self (mkAsk c trial) = (s, Ok tt)
    ∧ Trial.parameter_values (ask_trial s) !! k = Some PyNone
    ∧ Trial.ax_trial_id (ask_trial s) = Some i.
Proof.
  intros Hans Hk Hmissing.
  exists (mkAsk c' (filled self parameters i trial)).
  split; [by apply ask_body_filled|].
  destruct (filled_shape self parameters i trial) as (Hid & _ & Hvals).
  split; [|done]. cbn [ask_trial]. rewrite (Hvals k var Hk).
  unfold dict_get. by rewrite Hmissing.
Qed.

End Ask.

(** Two pending trials are filled by a client that accepts fixed
    features: the engine answers with its suggestion under the trial ids
    0 and 1. *)
Lemma ask_fills_every_trial_witness :
  let self := RefCases.generator in
  let trials := [RefCases.pending_trial; RefCases.pending_trial] in
  let c := RefClient.fresh_client true 4 in
  let suggestion := ∅ ∪ RefClient.suggestion (experiment_state c) in
  let c1 := (get_next_trial_fixed RefClient.ops (_fixed_features self) c).1 in
  let c2 := (get_next_trial_fixed RefClient.ops (_fixed_features self) c1).1 in
  _ask RefClient.ops self trials c
  = (c2, fill_all self trials [(suggestion, 0); (suggestion, 1)], Ok tt).
Proof.
  intros self trials c suggestion c1 c2.
  destruct (ask_fills_every_trial RefClient.ops self trials c) as (Hok & _ & _).
  apply Hok. exists [(suggestion, 0); (suggestion, 1)].
  split; [reflexivity|]. split; [|reflexivity].
  apply (engine_answers_cons RefClient.ops self c c1 c2 suggestion 0);
    [left; reflexivity|].
  apply (engine_answers_cons RefClient.ops self c1 c2 c2 suggestion 1);
    [left; reflexivity|].
  apply engine_answers_nil.
Defined.

(** A client whose [get_next_trial] takes no [fixed_features]. *)
Lemma ask_falls_back_on_type_error_witness :
  let self := Examples.generator [Examples.x0; Examples.x1] in
  let c := RefClient.fresh_client false 4 in
  _ask_body RefClient.ops self (mkAsk c Examples.pending_trial)
  = match get_next_trial RefClient.ops c with
    | (c2, Ok (parameters, i)) =>
        (mkAsk c2 (filled self parameters i Examples.pending_trial), Ok tt)
    | (c2, Raise e') => (mkAsk c2 Examples.pending_trial, Raise e')
    end.
Proof.
  intros self c.
  apply (ask_falls_back_on_type_error RefClient.ops self Examples.pending_trial
           c c
           (mkExn TypeError
              "get_next_trial() got an unexpected keyword argument 'fixed_features'")).
  - reflexivity.
  - reflexivity.
Defined.

(** The reference client suggests values for [x0] and [x1] only: the
    third parameter [x2] gets [None]. *)
Lemma ask_missing_name_gives_none_witness :
  let self := Examples.generator [Examples.x0; Examples.x1; Examples.x2] in
  let c := RefClient.fresh_client true 4 in
  ∃ s,
    _ask_body RefClient.ops self (mkAsk c Examples.pending_trial) = (s, Ok tt)
    ∧ Trial.parameter_values (ask_trial s) !! 2%nat = Some PyNone
    ∧ Trial.ax_trial_id (ask_trial s) = Some 0.
Proof.
  intros self c.
  apply (ask_missing_name_gives_none RefClient.ops self Examples.pending_trial
           c (get_next_trial_fixed RefClient.ops None c).1
           (∅ ∪ RefClient.suggestion (experiment_state c)) 0 2 Examples.x2).
  - left. reflexivity.
  - reflexivity.
  - reflexivity.
Defined.

(** ** Tell *)

Lemma Models_eqb_SOBOL (m : Models) : Models_eqb m SOBOL = true ↔ m = SOBOL.
Proof. by destruct m. Qed.

Lemma TrialStatus_eqb_eq (a b : TrialStatus) : TrialStatus_eqb a b = true ↔ a = b.
Proof. destruct a, b; cbn; split; intros; congruence. Qed.

Section Tell.

Context {F X H : Type}.
Variable ops : AxClientOps F X H.
Variable ax_version_ge_0_3_5 : bool.

Implicit Type self : AxServiceGenerator.
Implicit Type trial : Trial.t.
Implicit Type c : AxClient F X.
Implicit Type s : @TellState F X H.

(** *** The lookup of the engine trial *)

Lemma tell_lookup_no_id trial s :
  Trial.ax_trial_id trial = None →
  ∃ e, exn_class e = AttributeError ∧ tell_lookup ops trial s = (s, Raise e).
Proof.
  intros Hid. eexists. split; [|unfold tell_lookup, getattr_ax_trial_id].
  2: { rewrite Hid. py_unfold. reflexivity. }
  done.
Qed.

Lemma tell_lookup_with_id trial s (j : Z) :
  Trial.ax_trial_id trial = Some j →
  tell_lookup ops trial s
  = match get_trial ops j (tell_client s) with
    | (c', Ok h) => (mkTell c' (Some j) (Some h), Ok tt)
    | (c', Raise e) => (mkTell c' (Some j) (ax_trial s), Raise e)
    end.
Proof.
  intros Hid. unfold tell_lookup, getattr_ax_trial_id, bind_trial_id,
    bind_ax_trial, tell_call.
  rewrite Hid. py_unfold. cbn.
  by destruct (get_trial ops j (tell_client s)) as [c' [h|e]].
Qed.

(** *** The reduction of the initialization trials *)

Lemma reduce_init_trials_not_sobol c :
  model (current_step (generation_strategy c)) ≠ SOBOL →
  reduce_init_trials ops ax_version_ge_0_3_5 c = (c, Ok tt).
Proof.
  intros Hm. unfold reduce_init_trials. py_unfold.
  destruct (Models_eqb _ SOBOL) eqn:E; [by apply Models_eqb_SOBOL in E|].
  by destruct ax_version_ge_0_3_5.
Qed.

Lemma reduce_init_trials_sobol c tc tcs :
  ax_version_ge_0_3_5 = true →
  model (current_step (generation_strategy c)) = SOBOL →
  transition_criteria (current_step (generation_strategy c)) = tc :: tcs →
  reduce_init_trials ops ax_version_ge_0_3_5 c
  = discard (_maybe_move_to_next_step ops
      (with_counters
         (num_trials (current_step (generation_strategy c)) - 1)
         (mkCriterion (threshold tc - 1) :: tcs) c)).
Proof.
  intros -> Hm Htc.
  destruct c as [[done [m n tcs0 spec] ahead cached] ocs x].
  cbn in Hm, Htc. subst m tcs0.
  unfold reduce_init_trials, decrement_first_threshold, modify_current_step,
    with_counters, discard.
  py_unfold. cbn.
  by destruct (_maybe_move_to_next_step ops _) as [c3 [b|e]].
Qed.

Lemma reduce_init_trials_sobol_legacy c :
  ax_version_ge_0_3_5 = false →
  model (current_step (generation_strategy c)) = SOBOL →
  reduce_init_trials ops ax_version_ge_0_3_5 c
  = discard (_maybe_move_to_next_step ops
      (with_counters
         (num_trials (current_step (generation_strategy c)) - 1)
         (transition_criteria (current_step (generation_strategy c))) c)).
Proof.
  intros -> Hm.
  destruct c as [[done [m n tcs0 spec] ahead cached] ocs x].
  cbn in Hm. subst m.
  unfold reduce_init_trials, modify_current_step, with_counters, discard.
  py_unfold. cbn.
  by destruct (_maybe_move_to_next_step ops _) as [c3 [b|e]].
Qed.

(** *** The attach fallback *)

Lemma tell_attach_attached self trial s parameters (i : Z) c1 (h : H) c2 :
  attach_trial ops (attach_params trial) (tell_client s) = (c1, Ok (parameters, i)) →
  get_trial ops i c1 = (c2, Ok h) →
  tell_attach ops ax_version_ge_0_3_5 self trial s
  = if negb (TrialStatus_eqb (Trial.status trial) FAILED)
       && negb (_enforce_n_init self)
    then
      match reduce_init_trials ops ax_version_ge_0_3_5 c2 with
      | (c3, r) => (mkTell c3 (Some i) (Some h), r)
      end
    else (mkTell c2 (Some i) (Some h), Ok tt).
Proof.
  intros Hattach Hget.
  unfold tell_attach, bind_trial_id, bind_ax_trial, tell_call.
  py_unfold. cbn. rewrite Hattach. cbn. rewrite Hget. cbn.
  by destruct (negb _ && negb _).
Qed.

Lemma tell_attach_fails self trial s c1 e :
  attach_trial ops (attach_params trial) (tell_client s) = (c1, Raise e) →
  tell_attach ops ax_version_ge_0_3_5 self trial s
  = (mkTell c1 (trial_id s) (ax_trial s), Raise e).
Proof.
  intros Hattach. unfold tell_attach, tell_call. py_unfold.
  by rewrite Hattach.
Qed.

Lemma tell_resolve_no_id self trial s :
  Trial.ax_trial_id trial = None →
  tell_resolve ops ax_version_ge_0_3_5 self trial s
  = tell_attach ops ax_version_ge_0_3_5 self trial s.
Proof.
  intros Hid. destruct (tell_lookup_no_id trial s Hid) as (e & Hcls & Hlook).
  unfold tell_resolve. py_unfold. by rewrite Hlook, Hcls.
Qed.

(** C1.  When [_tell] attaches a trial that carries no engine trial id,
    whose status is not failed, with [enforce_n_init=False] and a current
    step that is the Sobol step, the trial count of that step and the
    threshold of its first transition criterion are each decremented by
    exactly one (the threshold when the installed Ax has transition
    criteria, from 0.3.5 on), and the strategy is then asked to move to
    the next step.  With [enforce_n_init=True], a failed trial, or a
    current step other than Sobol, the client is left as the attach and
    the fetch left it.  For a trial that carries an id the engine finds,
    nothing is attached and nothing is reduced. *)
Theorem tell_attach_reduces_sobol_phase self trial s :
  (∀ parameters (i : Z) c1 (h : H) c2,
     Trial.ax_trial_id trial = None →
     attach_trial ops (attach_params trial) (tell_client s)
     = (c1, Ok (parameters, i)) →
     get_trial ops i c1 = (c2, Ok h) →
     let cs := current_step (generation_strategy c2) in
     (Trial.status trial ≠ FAILED →
      _enforce_n_init self = false →
      model cs = SOBOL →
      (ax_version_ge_0_3_5 = true →
       ∀ tc tcs, transition_criteria cs = tc :: tcs →
         tell_resolve ops ax_version_ge_0_3_5 self trial s
         = after_move i h
             (_maybe_move_to_next_step ops
                (with_counters (num_trials cs - 1)
                   (mkCriterion (threshold tc - 1) :: tcs) c2)))
      ∧ (ax_version_ge_0_3_5 = false →
         tell_resolve ops ax_version_ge_0_3_5 self trial s
         = after_move i h
             (_maybe_move_to_next_step ops
                (with_counters (num_trials cs - 1) (transition_criteria cs) c2))))
     ∧ (Trial.status trial = FAILED ∨ _enforce_n_init self = true
        ∨ model cs ≠ SOBOL →
        tell_resolve ops ax_version_ge_0_3_5 self trial s
        = (mkTell c2 (Some i) (Some h), Ok tt)))
  ∧ (∀ (j : Z) c' (h : H),
       Trial.ax_trial_id trial = Some j →
       get_trial ops j (tell_client s) = (c', Ok h) →
       tell_resolve ops ax_version_ge_0_3_5 self trial s
       = (mkTell c' (Some j) (Some h), Ok tt)).
Proof.
  split.
  - intros parameters i c1 h c2 Hid Hattach Hget cs.
    rewrite (tell_resolve_no_id _ _ _ Hid).
    rewrite (tell_attach_attached _ _ _ _ _ _ _ _ Hattach Hget).
    split.
    + intros Hstatus Henforce Hsobol.
      assert (TrialStatus_eqb (Trial.status trial) FAILED = false) as ->.
      { destruct (TrialStatus_eqb _ _) eqn:E; [|done].
        by apply TrialStatus_eqb_eq in E. }
      rewrite Henforce. cbn [negb andb]. split.
      * intros Hver tc tcs Htc.
        rewrite (reduce_init_trials_sobol c2 tc tcs Hver Hsobol Htc).
        unfold discard, after_move.
        by destruct (_maybe_move_to_next_step ops _) as [c3 [b|e]].
      * intros Hver.
        rewrite (reduce_init_trials_sobol_legacy c2 Hver Hsobol).
        unfold discard, after_move.
        by destruct (_maybe_move_to_next_step ops _) as [c3 [b|e]].
    + intros [Hstatus|[Henforce|Hmodel]].
      * rewrite Hstatus. by cbn.
      * rewrite Henforce. by rewrite andb_false_r.
      * rewrite (reduce_init_trials_not_sobol c2 Hmodel).
        by destruct (negb _ && negb _).
  - intros j c' h Hid Hget.
    unfold tell_resolve. py_unfold.
    by rewrite (tell_lookup_with_id _ _ _ Hid), Hget.
Qed.

(** *** The marking of the engine trial *)

Lemma tell_body_unfold self trial s :
  _tell_body ops ax_version_ge_0_3_5 self trial s
  = match tell_resolve ops ax_version_ge_0_3_5 self trial s with
    | (s1, r) =>
        match tell_mark ops self trial s1 with
        | (s2, Ok _) => (s2, r)
        | (s2, Raise e) => (s2, Raise e)
        end
    end.
Proof. reflexivity. Qed.

Lemma tell_mark_completed self trial s (i : Z) :
  Trial.status trial = COMPLETED →
  trial_id s = Some i →
  tell_mark ops self trial s
  = tell_call (complete_trial ops i (outcome_evals (tell_client s) trial)) s.
Proof.
  intros Hst Hid. unfold tell_mark, Trial.completed, read_trial_id.
  rewrite Hst. py_unfold. cbn. by rewrite Hid.
Qed.

Lemma tell_mark_failed self trial s (h : H) :
  Trial.status trial = FAILED →
  ax_trial s = Some h →
  tell_mark ops self trial s
  = tell_call (if _abandon_failed_trials self
               then mark_abandoned ops h else mark_failed ops h) s.
Proof.
  intros Hst Hh. unfold tell_mark, Trial.completed, Trial.failed, read_ax_trial.
  rewrite Hst. py_unfold. cbn.
  destruct (_abandon_failed_trials self); by rewrite Hh.
Qed.

Lemma tell_mark_other self trial s :
  Trial.status trial ≠ COMPLETED →
  Trial.status trial ≠ FAILED →
  tell_mark ops self trial s = (s, Ok tt).
Proof.
  intros Hc Hf. unfold tell_mark, Trial.completed, Trial.failed.
  destruct (Trial.status trial); done.
Qed.

Lemma tell_call_locals {A} (m : M (AxClient F X) A) s s' r :
  tell_call m s = (s', r) →
  trial_id s' = trial_id s ∧ ax_trial s' = ax_trial s.
Proof.
  unfold tell_call. destruct (m (tell_client s)) as [c' r'].
  by intros [= <- <-].
Qed.

(** A resolution that does not raise leaves both local variables bound. *)
Lemma tell_resolve_ok_bound self trial s s1 :
  tell_resolve ops ax_version_ge_0_3_5 self trial s = (s1, Ok tt) →
  ∃ (i : Z) (h : H), trial_id s1 = Some i ∧ ax_trial s1 = Some h.
Proof.
  assert (Hattach : ∀ s0,
    tell_attach ops ax_version_ge_0_3_5 self trial s0 = (s1, Ok tt) →
    ∃ (i : Z) (h : H), trial_id s1 = Some i ∧ ax_trial s1 = Some h).
  { intros s0.
    destruct (attach_trial ops (attach_params trial) (tell_client s0))
      as [c1 [[parameters i]|e]] eqn:Hatt.
    2: { rewrite (tell_attach_fails _ _ _ _ _ Hatt). done. }
    destruct (get_trial ops i c1) as [c2 [h|e]] eqn:Hget.
    - rewrite (tell_attach_attached _ _ _ _ _ _ _ _ Hatt Hget).
      destruct (negb _ && negb _).
      + destruct (reduce_init_trials _ _ c2) as [c3 r].
        intros [= <- _]. by exists i, h.
      + intros [= <-]. by exists i, h.
    - unfold tell_attach, bind_trial_id, bind_ax_trial, tell_call.
      py_unfold. cbn. rewrite Hatt. cbn. by rewrite Hget. }
  destruct (Trial.ax_trial_id trial) as [j|] eqn:Hid.
  - unfold tell_resolve. py_unfold.
    rewrite (tell_lookup_with_id _ _ _ Hid).
    destruct (get_trial ops j (tell_client s)) as [c' [h|e]].
    + intros [= <-]. by exists j, h.
    + destruct (ExnClass_eqb _ _); [apply Hattach|done].
  - rewrite (tell_resolve_no_id _ _ _ Hid). apply Hattach.
Qed.

Lemma fold_insert_all_lookup {A V} (key : A → string) (val : A → V)
    (l : list A) (m0 : gmap string V) (n : string) :
  fold_left (fun acc a => <[key a := val a]> acc) l m0 !! n
  = match last (filter (fun a => key a = n) l) with
    | Some a => Some (val a)
    | None => m0 !! n
    end.
Proof.
  revert m0. induction l as [|a l IH]; intros m0; [done|].
  cbn [fold_left]. rewrite IH, filter_cons.
  destruct (decide (key a = n)) as [Hk|Hn].
  - rewrite last_cons. destruct (last _); [done|].
    subst n. by rewrite lookup_insert_eq.
  - destruct (last _); [done|]. by rewrite lookup_insert_ne.
Qed.

Lemma filter_cond_named {A} (cond : A → bool) (P : A → Prop)
    `{∀ a, Decision (P a)} (key : A → string) (n : string) (l : list A) :
  (∀ a, cond a = true ↔ P a) →
  filter (fun a => cond a = true ∧ key a = n) l
  = filter (fun a => key a = n) (filter P l).
Proof.
  intros Hcond. induction l as [|a l IH]; [done|].
  rewrite !filter_cons.
  destruct (decide (P a)) as [HP|HP].
  - rewrite filter_cons. destruct (decide (key a = n)) as [Hk|Hk].
    + rewrite decide_True by (split; [by apply Hcond|done]). by rewrite IH.
    + rewrite decide_False by (by intros [_ ?]). done.
  - rewrite decide_False; [done|]. intros [Hc _]. by apply HP, Hcond.
Qed.

Lemma filter_elem_of_nil {A} (key : A → string) (l : list A) :
  filter (fun a => key a ∈ @nil string) l = [].
Proof.
  induction l as [|a l IH]; [done|].
  rewrite filter_cons, decide_False; [done|]. apply not_elem_of_nil.
Qed.

(** The outcome map holds, under each name, the pair of the objective
    evaluation of that name, replaced by the pair of the evaluation of a
    constraint metric of that name when there is one; it holds nothing
    else. *)
Lemma outcome_evals_lookup c trial (n : string) :
  outcome_evals c trial !! n = expected_outcome c trial n.
Proof.
  unfold outcome_evals, expected_outcome, constraint_evaluations,
    evaluations_named.
  set (key := fun ev => AnalyzedParameter.name (Evaluation.parameter ev)).
  set (val := fun ev => (Evaluation.value ev, Evaluation.sem ev)).
  assert (Hobj : ∀ l,
    fold_left (fun acc ev => <[(evaluation_entry ev).1 := (evaluation_entry ev).2]> acc)
      l (∅ : gmap string (pyval * pyval)) !! n
    = match last (filter (fun ev => key ev = n) l) with
      | Some ev => Some (val ev)
      | None => None
      end).
  { intros l. etrans; [apply (fold_insert_all_lookup key val)|].
    by rewrite lookup_empty. }
  destruct (outcome_constraints c) as [|oc ocs] eqn:Hocs.
  - rewrite Hobj. cbn [map]. by rewrite filter_elem_of_nil.
  - etrans.
    { apply (fold_insert_lookup
               (fun ev => bool_decide (key ev ∈ map metric_name (oc :: ocs)))
               key val). }
    rewrite (filter_cond_named _ (fun ev => key ev ∈ map metric_name (oc :: ocs))).
    2: { intros ev. apply bool_decide_eq_true. }
    destruct (last _); [done|]. apply Hobj.
Qed.

(** When [_tell] returns, every trial of the list went through a
    resolution that bound its engine trial and through the marking call
    of its status, neither of which raised. *)
Lemma tell_every_trial_marked self (trials : list Trial.t) c c' :
  _tell ops ax_version_ge_0_3_5 self trials c = (c', Ok tt) →
  Forall (fun trial =>
    ∃ s s1 s2 (i : Z) (h : H),
      tell_resolve ops ax_version_ge_0_3_5 self trial s = (s1, Ok tt)
      ∧ trial_id s1 = Some i
      ∧ ax_trial s1 = Some h
      ∧ (Trial.status trial = COMPLETED →
         tell_call (complete_trial ops i (outcome_evals (tell_client s1) trial)) s1
         = (s2, Ok tt))
      ∧ (Trial.status trial = FAILED →
         tell_call (if _abandon_failed_trials self
                    then mark_abandoned ops h else mark_failed ops h) s1
         = (s2, Ok tt))) trials.
Proof.
  unfold _tell.
  destruct (for_each trials _ _) as [sf r] eqn:Hloop.
  intros [= <- ->]. apply for_each_ok_iterations in Hloop.
  induction Hloop as [|trial trials s s' sf Hbody _ IH]; constructor; [|done].
  rewrite tell_body_unfold in Hbody.
  destruct (tell_resolve ops ax_version_ge_0_3_5 self trial s) as [s1 r] eqn:Hres.
  destruct (tell_mark ops self trial s1) as [s2 [[]|e]] eqn:Hmark; [|done].
  injection Hbody as -> ->.
  destruct (tell_resolve_ok_bound _ _ _ _ Hres) as (i & h & Hi & Hh).
  exists s, s1, s', i, h. do 3 (split; [done|]). split.
  - intros Hst. by rewrite <- (tell_mark_completed self _ _ _ Hst Hi).
  - intros Hst. by rewrite <- (tell_mark_failed self _ _ _ Hst Hh).
Qed.

(** C2, amended.  For a trial whose engine trial was resolved without an
    exception (found by its id, or attached): if the trial is completed,
    the iteration of [_tell] ends with the call [complete_trial] on the
    resolved id with the outcome map, which holds exactly the objective
    evaluations and the evaluations of the analyzed parameters that are
    metrics of an outcome constraint; if the trial is failed, it ends with
    [mark_abandoned] on the engine trial when [abandon_failed_trials] is
    set and with [mark_failed] otherwise; the outcome of the iteration is
    the outcome of that call.  [_tell] returns exactly when no iteration
    raises, and then every trial of the list was resolved and marked in
    this way. *)
Theorem tell_marks_engine_trial self :
  (∀ trial s s1,
     tell_resolve ops ax_version_ge_0_3_5 self trial s = (s1, Ok tt) →
     ∃ (i : Z) (h : H),
       trial_id s1 = Some i
       ∧ ax_trial s1 = Some h
       ∧ (Trial.status trial = COMPLETED →
          _tell_body ops ax_version_ge_0_3_5 self trial s
          = tell_call
              (complete_trial ops i (outcome_evals (tell_client s1) trial)) s1)
       ∧ (Trial.status trial = FAILED →
          _tell_body ops ax_version_ge_0_3_5 self trial s
          = tell_call (if _abandon_failed_trials self
                       then mark_abandoned ops h else mark_failed ops h) s1))
  ∧ (∀ c trial n, outcome_evals c trial !! n = expected_outcome c trial n)
  ∧ (∀ (trials : list Trial.t) c c',
       _tell ops ax_version_ge_0_3_5 self trials c = (c', Ok tt)
       ↔ ∃ s',
           iterations (_tell_body ops ax_version_ge_0_3_5 self) trials
             (mkTell c None None) s'
           ∧ tell_client s' = c')
  ∧ (∀ (trials : list Trial.t) c c',
       _tell ops ax_version_ge_0_3_5 self trials c = (c', Ok tt) →
       Forall (fun trial =>
         ∃ s s1 s2 (i : Z) (h : H),
           tell_resolve ops ax_version_ge_0_3_5 self trial s = (s1, Ok tt)
           ∧ trial_id s1 = Some i
           ∧ ax_trial s1 = Some h
           ∧ (Trial.status trial = COMPLETED →
              tell_call
                (complete_trial ops i (outcome_evals (tell_client s1) trial)) s1
              = (s2, Ok tt))
           ∧ (Trial.status trial = FAILED →
              tell_call (if _abandon_failed_trials self
                         then mark_abandoned ops h else mark_failed ops h) s1
              = (s2, Ok tt))) trials).
Proof.
  split; [|split; [|split]].
  - intros trial s s1 Hres.
    destruct (tell_resolve_ok_bound _ _ _ _ Hres) as (i & h & Hi & Hh).
    exists i, h. split; [done|]. split; [done|].
    assert (Hfin : ∀ (m : M (AxClient F X) unit),
      match tell_call m s1 with
      | (s2, Ok _) => (s2, Ok tt)
      | (s2, Raise e) => (s2, Raise e)
      end = tell_call m s1).
    { intros m. by destruct (tell_call m s1) as [s2 [[]|e]]. }
    split.
    + intros Hst. rewrite tell_body_unfold, Hres.
      rewrite (tell_mark_completed _ _ _ _ Hst Hi). apply Hfin.
    + intros Hst. rewrite tell_body_unfold, Hres.
      rewrite (tell_mark_failed _ _ _ _ Hst Hh). apply Hfin.
  - apply outcome_evals_lookup.
  - intros trials c c'. unfold _tell.
    destruct (for_each trials _ _) as [sf r] eqn:Hloop. split.
    + intros [= <- ->]. exists sf. split; [|done].
      by apply for_each_ok_iterations.
    + intros (s' & Hiter & <-). apply for_each_ok_iterations in Hiter.
      rewrite Hiter in Hloop. by injection Hloop as <- <-.
  - apply tell_every_trial_marked.
Qed.

(** C3, amended.  An [AttributeError] of the lookup (the trial has no
    [ax_trial_id], or the fetch raises that class) is answered by the
    attach fallback.  Any other exception of the fetch ends the resolution
    as it is, without an attach; so does a failure of the attach.  In
    every case the marking step then runs on the state the resolution
    left, and a completed trial is completed under the trial id bound at
    that point (the id of the trial itself after a failed fetch).  After
    a failed fetch or a failed attach the iteration raises: the exception
    of the marking step when that raises, else the exception of the fetch
    or of the attach. *)
Theorem tell_resolution_recovery self trial s :
  (∀ s1 r s2 r',
     tell_resolve ops ax_version_ge_0_3_5 self trial s = (s1, r) →
     tell_mark ops self trial s1 = (s2, r') →
     _tell_body ops ax_version_ge_0_3_5 self trial s
     = (s2, match r' with Ok _ => r | Raise e' => Raise e' end))
  ∧ (∀ s1 e,
       tell_lookup ops trial s = (s1, Raise e) →
       exn_class e = AttributeError →
       tell_resolve ops ax_version_ge_0_3_5 self trial s
       = tell_attach ops ax_version_ge_0_3_5 self trial s1)
  ∧ (Trial.ax_trial_id trial = None →
     tell_resolve ops ax_version_ge_0_3_5 self trial s
     = tell_attach ops ax_version_ge_0_3_5 self trial s)
  ∧ (∀ (j : Z) c1 e,
       Trial.ax_trial_id trial = Some j →
       get_trial ops j (tell_client s) = (c1, Raise e) →
       exn_class e ≠ AttributeError →
       tell_resolve ops ax_version_ge_0_3_5 self trial s
       = (mkTell c1 (Some j) (ax_trial s), Raise e)
       ∧ _tell_body ops ax_version_ge_0_3_5 self trial s
         = match tell_mark ops self trial (mkTell c1 (Some j) (ax_trial s)) with
           | (s2, Ok _) => (s2, Raise e)
           | (s2, Raise e') => (s2, Raise e')
           end
       ∧ (Trial.status trial = COMPLETED →
          tell_mark ops self trial (mkTell c1 (Some j) (ax_trial s))
          = tell_call (complete_trial ops j (outcome_evals c1 trial))
              (mkTell c1 (Some j) (ax_trial s))))
  ∧ (∀ c1 e,
       Trial.ax_trial_id trial = None →
       attach_trial ops (attach_params trial) (tell_client s) = (c1, Raise e) →
       tell_resolve ops ax_version_ge_0_3_5 self trial s
       = (mkTell c1 (trial_id s) (ax_trial s), Raise e)
       ∧ _tell_body ops ax_version_ge_0_3_5 self trial s
         = match tell_mark ops self trial
                   (mkTell c1 (trial_id s) (ax_trial s)) with
           | (s2, Ok _) => (s2, Raise e)
           | (s2, Raise e') => (s2, Raise e')
           end)
  ∧ (∀ s1 r (i : Z),
       tell_resolve ops ax_version_ge_0_3_5 self trial s = (s1, r) →
       trial_id s1 = Some i →
       Trial.status trial = COMPLETED →
       tell_mark ops self trial s1
       = tell_call
           (complete_trial ops i (outcome_evals (tell_client s1) trial)) s1).
Proof.
  split; [|split; [|split; [|split; [|split]]]].
  6: { intros s1 r i _ Hi Hst. by apply tell_mark_completed. }
  - intros s1 r s2 r' Hres Hmark.
    rewrite tell_body_unfold, Hres, Hmark. by destruct r'.
  - intros s1 e Hlook Hcls. unfold tell_resolve. py_unfold.
    by rewrite Hlook, Hcls.
  - apply tell_resolve_no_id.
  - intros j c1 e Hid Hget Hcls.
    assert (Hres : tell_resolve ops ax_version_ge_0_3_5 self trial s
                   = (mkTell c1 (Some j) (ax_trial s), Raise e)).
    { unfold tell_resolve. py_unfold.
      rewrite (tell_lookup_with_id _ _ _ Hid), Hget.
      by rewrite (ExnClass_eqb_neq _ _ Hcls). }
    split; [done|]. split.
    + by rewrite tell_body_unfold, Hres.
    + intros Hst.
      by rewrite (tell_mark_completed self trial
                    (mkTell c1 (Some j) (ax_trial s)) j Hst eq_refl).
  - intros c1 e Hid Hatt.
    assert (Hres : tell_resolve ops ax_version_ge_0_3_5 self trial s
                   = (mkTell c1 (trial_id s) (ax_trial s), Raise e)).
    { rewrite (tell_resolve_no_id _ _ _ Hid).
      by rewrite (tell_attach_fails _ _ _ _ _ Hatt). }
    split; [done|]. by rewrite tell_body_unfold, Hres.
Qed.

End Tell.

(** An evaluated trial without an engine trial id is attached to a fresh
    client with four Sobol trials: the count and the threshold of the
    Sobol step go from four to three. *)
Lemma tell_attach_reduces_sobol_phase_witness :
  let self := Examples.generator [Examples.x0; Examples.x1] in
  let c := RefClient.fresh_client true 4 in
  let c1 := (attach_trial RefClient.ops (attach_params Examples.external_trial) c).1 in
  tell_resolve RefClient.ops true self Examples.external_trial (mkTell c None None)
  = after_move 0 0
      (_maybe_move_to_next_step RefClient.ops
         (with_counters 3 [mkCriterion 3] c1)).
Proof.
  intros self c c1.
  destruct (tell_attach_reduces_sobol_phase RefClient.ops true self
              Examples.external_trial (mkTell c None None)) as [Hattach _].
  destruct (Hattach (attach_params Examples.external_trial) 0 c1 0 c1
              eq_refl eq_refl eq_refl) as [Hreduce _].
  destruct Hreduce as [Hnew _]; [discriminate|reflexivity|reflexivity|].
  exact (Hnew eq_refl (mkCriterion 4) [] eq_refl).
Defined.

(** An evaluated external trial is attached, then completed in the client
    under the id it was attached with. *)
Lemma tell_marks_engine_trial_witness :
  let self := Examples.generator [Examples.x0; Examples.x1] in
  let s := mkTell (RefClient.fresh_client true 4) None None in
  let s1 := (tell_resolve RefClient.ops true self Examples.external_trial s).1 in
  ∃ (i h : Z),
    trial_id s1 = Some i
    ∧ ax_trial s1 = Some h
    ∧ (Trial.status Examples.external_trial = COMPLETED →
       _tell_body RefClient.ops true self Examples.external_trial s
       = tell_call
           (complete_trial RefClient.ops i
              (outcome_evals (tell_client s1) Examples.external_trial)) s1)
    ∧ (Trial.status Examples.external_trial = FAILED →
       _tell_body RefClient.ops true self Examples.external_trial s
       = tell_call (if _abandon_failed_trials self
                    then mark_abandoned RefClient.ops h
                    else mark_failed RefClient.ops h) s1).
Proof.
  intros self s s1.
  destruct (tell_marks_engine_trial RefClient.ops true self) as (Hbody & _).
  apply (Hbody Examples.external_trial s s1).
  reflexivity.
Defined.

(** C2, as stated, fails: a completed trial with an id unknown to the
    client makes [_tell] raise; the completed trial passed after it is not
    reached, and its engine trial is left running.  A failed trial with an
    unknown id makes [_tell] raise [UnboundLocalError] in the marking
    step, and nothing is marked. *)
Lemma tell_leaves_engine_trial_pending :
  let self := RefCases.generator in
  let trials := [Examples.stray_trial; RefCases.asked_trial] in
  let out := _tell RefClient.ops true self trials RefCases.asked_client in
  let out' := _tell RefClient.ops true self [RefCases.stray_failed_trial]
                RefCases.asked_client in
  out.2 = Raise (mkExn KeyError "trial index")
  ∧ ¬ RefCases.none_left_pending trials out.1
  ∧ out'.2 = Raise (unbound "ax_trial")
  ∧ RefClient.trials (experiment_state out'.1)
    = RefClient.trials (experiment_state RefCases.asked_client).
Proof.
  intros self trials out out'.
  split; [reflexivity|]. split; [|split; reflexivity].
  intros Hnone.
  assert (Hrun : ∃ p, RefClient.lookup_trial 0
                        (RefClient.trials (experiment_state out.1))
                      = Some (p, RefClient.E_RUNNING))
    by (eexists; reflexivity).
  destruct Hrun as [p Hrun].
  apply (Hnone RefCases.asked_trial 0 (p, RefClient.E_RUNNING)).
  - apply list_elem_of_further, list_elem_of_here.
  - left. reflexivity.
  - reflexivity.
  - exact Hrun.
  - reflexivity.
Qed.

(** C3, as stated, fails: a trial that carries an id unknown to the client
    makes the fetch raise a [KeyError]; the attach fallback is not taken,
    nothing is attached, and the error reaches the caller. *)
Lemma tell_unknown_id_is_not_recovered :
  let self := Examples.generator [Examples.x0; Examples.x1] in
  let c := RefClient.fresh_client true 4 in
  let s := mkTell c None None in
  let out := _tell_body RefClient.ops true self Examples.stray_trial s in
  ¬ lookup_failure_recovered RefClient.ops true self Examples.stray_trial s
  ∧ out.2 = Raise (mkExn KeyError "trial index")
  ∧ RefClient.trials (experiment_state (tell_client out.1)) = [].
Proof.
  intros self c s out. split; [|split; reflexivity].
  intros Hrec.
  specialize (Hrec (mkTell c (Some 7) None) (mkExn KeyError "trial index") eq_refl).
  apply (f_equal snd) in Hrec. vm_compute in Hrec. discriminate.
Qed.

(** The amended statement on the same trial: the [KeyError] of the fetch
    ends the resolution; the marking step then calls [complete_trial]
    under the id 7 of the trial, and the iteration raises the [KeyError]
    of that call. *)
Lemma tell_resolution_recovery_witness :
  let self := Examples.generator [Examples.x0; Examples.x1] in
  let c := RefClient.fresh_client true 4 in
  let trial := Examples.stray_trial in
  let e := mkExn KeyError "trial index" in
  tell_resolve RefClient.ops true self trial (mkTell c None None)
  = (mkTell c (Some 7) None, Raise e)
  ∧ _tell_body RefClient.ops true self trial (mkTell c None None)
    = match tell_mark RefClient.ops self trial (mkTell c (Some 7) None) with
      | (s2, Ok _) => (s2, Raise e)
      | (s2, Raise e') => (s2, Raise e')
      end
  ∧ (Trial.status trial = COMPLETED →
     tell_mark RefClient.ops self trial (mkTell c (Some 7) None)
     = tell_call (complete_trial RefClient.ops 7 (outcome_evals c trial))
         (mkTell c (Some 7) None)).
Proof.
  intros self c trial e.
  destruct (tell_resolution_recovery RefClient.ops true self trial
              (mkTell c None None))
    as (_ & _ & _ & Hother & _).
  apply (Hother 7 c e).
  - reflexivity.
  - reflexivity.
  - discriminate.
Defined.

(** ** The serialization guard and the merge *)

Section Guard.

Context {F X : Type}.

Implicit Type c : AxClient F X.

Lemma prepare_to_send_no_model c :
  _model (generation_strategy c) = None →
  _prepare_to_send c = (c, Ok tt).
Proof. intros Hm. unfold _prepare_to_send. py_unfold. by rewrite Hm. Qed.

Lemma prepare_to_send_clears c (m : F) :
  _model (generation_strategy c) = Some m →
  ∃ c',
    _prepare_to_send c = (c', Ok tt)
    ∧ _fitted_model (model_spec (_curr (generation_strategy c'))) = None
    ∧ _model (generation_strategy c') = None
    ∧ phase_index (generation_strategy c') = phase_index (generation_strategy c)
    ∧ phase_trial_counts (generation_strategy c')
      = phase_trial_counts (generation_strategy c)
    ∧ map transition_criteria (all_steps (generation_strategy c'))
      = map transition_criteria (all_steps (generation_strategy c))
    ∧ map model (all_steps (generation_strategy c'))
      = map model (all_steps (generation_strategy c)).
Proof.
  intros Hm. destruct c as [[done [md n tcs spec] ahead cached] ocs x].
  cbn in Hm. subst cached.
  eexists. split; [reflexivity|].
  unfold phase_index, phase_trial_counts, all_steps. cbn.
  rewrite !map_app. by cbn.
Qed.

End Guard.

Section MergeFacts.

Import Merge.

Implicit Type h : store.

Lemma vars_insert_eq h (l : loc) (o : gmap string value) :
  vars (<[l := o]> h) l = o.
Proof. unfold vars. by rewrite lookup_insert_eq. Qed.

Lemma vars_insert_ne h (l l' : loc) (o : gmap string value) :
  l ≠ l' → vars (<[l := o]> h) l' = vars h l'.
Proof. intros Hne. unfold vars. by rewrite lookup_insert_ne. Qed.

(** The base update does not change what the newer generator holds as its
    client. *)
Lemma base_update_keeps_new_client (self new_generator : loc) h (v : value) :
  vars h new_generator !! "_ax_client"%string = Some v →
  vars (<[self := vars h new_generator ∪ vars h self]> h) new_generator
    !! "_ax_client"%string = Some v.
Proof.
  intros Hv. destruct (decide (self = new_generator)) as [->|Hne].
  - rewrite vars_insert_eq. by apply lookup_union_Some_l.
  - by rewrite vars_insert_ne.
Qed.

(** The merge keeps the client object of the original generator and copies
    onto it the attributes of the client of the newer generator. *)
Lemma update_keeps_client (self new_generator original new_client : loc) h :
  vars h self !! "_ax_client"%string = Some (Ref original) →
  vars h new_generator !! "_ax_client"%string = Some (Ref new_client) →
  ∃ h',
    _update self new_generator h = (h', Ok tt)
    ∧ vars h' self !! "_ax_client"%string = Some (Ref original)
    ∧ (self ≠ original → self ≠ new_client →
       ∀ attr v, vars h new_client !! attr = Some v →
                 vars h' original !! attr = Some v).
Proof.
  intros Hold Hnew.
  pose proof (base_update_keeps_new_client self new_generator h _ Hnew) as Hnew1.
  unfold _update, base_update, update_object, getattr, setattr, as_object.
  py_unfold. rewrite Hold. cbn. rewrite Hnew1. cbn.
  eexists. split; [reflexivity|]. split.
  - rewrite vars_insert_eq. by rewrite lookup_insert_eq.
  - intros Hso Hsn attr v Hattr.
    rewrite vars_insert_ne by done. rewrite vars_insert_eq.
    apply lookup_union_Some_l. by rewrite vars_insert_ne.
Qed.

End MergeFacts.

(** C9.  When a fitted model is cached, [_prepare_to_send] sets to [None]
    both the fitted model of the model spec of the current step and the
    cached model of the strategy, and leaves the index of the current
    phase and the trial counts of all phases as they were.  [_update]
    returns with [self._ax_client] being the very client object it was
    before the merge, the attributes of the client of the newer generator
    having been copied onto that object. *)
Theorem guard_clears_model_and_merge_keeps_client :
  (∀ (F X : Type) (c : AxClient F X) (m : F),
     _model (generation_strategy c) = Some m →
     ∃ c',
       _prepare_to_send c = (c', Ok tt)
       ∧ _fitted_model (model_spec (_curr (generation_strategy c'))) = None
       ∧ _model (generation_strategy c') = None
       ∧ phase_index (generation_strategy c') = phase_index (generation_strategy c)
       ∧ phase_trial_counts (generation_strategy c')
         = phase_trial_counts (generation_strategy c))
  ∧ (∀ (self new_generator original new_client : Merge.loc) (h : Merge.store),
       Merge.vars h self !! "_ax_client"%string = Some (Merge.Ref original) →
       Merge.vars h new_generator !! "_ax_client"%string
       = Some (Merge.Ref new_client) →
       ∃ h',
         Merge._update self new_generator h = (h', Ok tt)
         ∧ Merge.vars h' self !! "_ax_client"%string = Some (Merge.Ref original)
         ∧ (self ≠ original → self ≠ new_client →
            ∀ attr v, Merge.vars h new_client !! attr = Some v →
                      Merge.vars h' original !! attr = Some v)).
Proof.
  split.
  - intros F X c m Hm.
    destruct (prepare_to_send_clears c m Hm) as (c' & ? & ? & ? & ? & ? & _).
    by exists c'.
  - apply update_keeps_client.
Qed.

(** The guard on a client with a cached model, and the merge on a store
    with two generators and their clients. *)
Lemma guard_clears_model_and_merge_keeps_client_witness :
  (∃ c',
     _prepare_to_send Examples.fitted_client = (c', Ok tt)
     ∧ _fitted_model (model_spec (_curr (generation_strategy c'))) = None
     ∧ _model (generation_strategy c') = None
     ∧ phase_index (generation_strategy c') = 1%nat
     ∧ phase_trial_counts (generation_strategy c') = [4; -1])
  ∧ (∃ h',
       Merge._update 1%positive 2%positive Examples.merge_store = (h', Ok tt)
       ∧ Merge.vars h' 1%positive !! "_ax_client"%string = Some (Merge.Ref 10%positive)
       ∧ (1%positive ≠ 10%positive → 1%positive ≠ 20%positive →
          ∀ attr v, Merge.vars Examples.merge_store 20%positive !! attr = Some v →
                    Merge.vars h' 10%positive !! attr = Some v)).
Proof.
  destruct guard_clears_model_and_merge_keeps_client as [Hguard Hmerge].
  split.
  - apply (Hguard nat RefClient.Experiment Examples.fitted_client 17%nat).
    reflexivity.
  - apply (Hmerge 1%positive 2%positive 10%positive 20%positive
             Examples.merge_store).
    + reflexivity.
    + reflexivity.
Defined.

(** ** Further properties of ask *)

Section AskMore.

Context {F X H : Type}.
Variable ops : AxClientOps F X H.

Implicit Type self : AxServiceGenerator.
Implicit Type trial : Trial.t.
Implicit Type c : AxClient F X.

Lemma filled_keeps_record self parameters i trial :
  Trial.varying_parameters (filled self parameters i trial)
  = Trial.varying_parameters trial
  ∧ Trial.status (filled self parameters i trial) = Trial.status trial
  ∧ Trial.objective_evaluations (filled self parameters i trial)
    = Trial.objective_evaluations trial
  ∧ Trial.parameter_evaluations (filled self parameters i trial)
    = Trial.parameter_evaluations trial.
Proof. done. Qed.

(** X1.  Whatever its outcome, [_ask] writes only the parameter values
    and the engine trial id of a trial: the declared parameters, the
    status and the evaluations of every trial of the list are the ones it
    was passed with, at the same position. *)
Theorem ask_keeps_trial_records self (trials trials' : list Trial.t) c c' r :
  _ask ops self trials c = (c', trials', r) →
  Forall2 (fun trial trial' =>
    Trial.varying_parameters trial' = Trial.varying_parameters trial
    ∧ Trial.status trial' = Trial.status trial
    ∧ Trial.objective_evaluations trial' = Trial.objective_evaluations trial
    ∧ Trial.parameter_evaluations trial' = Trial.parameter_evaluations trial)
    trials trials'.
Proof.
  revert trials' c c' r.
  induction trials as [|trial trials IH]; intros trials' c c' r.
  - cbn. intros [= <- <- <-]. constructor.
  - cbn [_ask].
    destruct (_ask_body ops self (mkAsk c trial)) as [s rb] eqn:Hbody.
    pose proof (ask_body_inv _ _ _ _ _ _ Hbody) as Hinv.
    destruct rb as [[]|e].
    + destruct Hinv as (parameters & i & _ & Hfilled).
      destruct (_ask ops self trials (ask_client s)) as [[c2 rest'] r2] eqn:Hrest.
      intros [= <- <- <-]. constructor; [|by eapply IH].
      rewrite Hfilled. apply filled_keeps_record.
    + intros [= <- <- <-]. rewrite Hinv. constructor; [done|].
      clear. induction trials; by constructor.
Qed.

(** X2.  Asking for a list of trials is asking for its first part and
    then, from the client this leaves, for the rest; when the first part
    raises, the rest is returned untouched and the client is the one the
    failing request left. *)
Theorem ask_app self (trials1 trials2 : list Trial.t) c :
  _ask ops self (trials1 ++ trials2) c
  = match _ask ops self trials1 c with
    | (c1, trials1', Ok _) =>
        match _ask ops self trials2 c1 with
        | (c2, trials2', r) => (c2, trials1' ++ trials2', r)
        end
    | (c1, trials1', Raise e) => (c1, trials1' ++ trials2, Raise e)
    end.
Proof.
  revert c. induction trials1 as [|trial trials1 IH]; intros c.
  - cbn. by destruct (_ask ops self trials2 c) as [[c2 trials2'] r].
  - cbn [_ask app].
    destruct (_ask_body ops self (mkAsk c trial)) as [s [[]|e]]; [|done].
    rewrite IH.
    destruct (_ask ops self trials1 (ask_client s)) as [[c1 trials1'] [[]|e]];
      [|done].
    by destruct (_ask ops self trials2 c1) as [[c2 trials2'] r].
Qed.

End AskMore.

Lemma ask_keeps_trial_records_witness :
  let self := Examples.generator [Examples.x0; Examples.x1] in
  let trials := [Examples.external_trial; Examples.pending_trial] in
  let out := _ask RefClient.ops self trials (RefClient.fresh_client true 4) in
  Forall2 (fun trial trial' =>
    Trial.varying_parameters trial' = Trial.varying_parameters trial
    ∧ Trial.status trial' = Trial.status trial
    ∧ Trial.objective_evaluations trial' = Trial.objective_evaluations trial
    ∧ Trial.parameter_evaluations trial' = Trial.parameter_evaluations trial)
    trials out.1.2.
Proof.
  intros self trials out.
  apply (ask_keeps_trial_records RefClient.ops self trials out.1.2
           (RefClient.fresh_client true 4) out.1.1 out.2).
  reflexivity.
Defined.

(** ** Further properties of tell *)

Lemma for_each_app {S A} (xs ys : list A) (body : A → M S unit) (s : S) :
  for_each (xs ++ ys) body s
  = match for_each xs body s with
    | (s', Ok _) => for_each ys body s'
    | (s', Raise e) => (s', Raise e)
    end.
Proof.
  revert s. induction xs as [|x xs IH]; intros s; [done|].
  cbn [app]. rewrite !for_each_cons.
  destruct (body x s) as [s1 [[]|e]]; [apply IH|done].
Qed.

Section TellMore.

Context {F X H : Type}.
Variable ops : AxClientOps F X H.
Variable ax_version_ge_0_3_5 : bool.

Implicit Type self : AxServiceGenerator.
Implicit Type trial : Trial.t.
Implicit Type c : AxClient F X.
Implicit Type s : @TellState F X H.

(** X3.  [_tell] stops at the first trial whose iteration raises: the
    trials after it are not looked at, and the client is left as that
    iteration left it. *)
Theorem tell_stops_at_first_failure self (before after : list Trial.t)
    trial c s1 s2 e :
  for_each before (_tell_body ops ax_version_ge_0_3_5 self) (mkTell c None None)
  = (s1, Ok tt) →
  _tell_body ops ax_version_ge_0_3_5 self trial s1 = (s2, Raise e) →
  _tell ops ax_version_ge_0_3_5 self (before ++ trial :: after) c
  = (tell_client s2, Raise e).
Proof.
  intros Hbefore Hbody. unfold _tell.
  by rewrite for_each_app, Hbefore, for_each_cons, Hbody.
Qed.

(** X4.  A trial that is neither completed nor failed is resolved like
    any other (an external one is attached, and counts against the Sobol
    trials), but its engine trial is not marked: the iteration is the
    resolution alone. *)
Theorem tell_leaves_unevaluated_trial_unmarked self trial s :
  Trial.status trial ≠ COMPLETED →
  Trial.status trial ≠ FAILED →
  _tell_body ops ax_version_ge_0_3_5 self trial s
  = tell_resolve ops ax_version_ge_0_3_5 self trial s.
Proof.
  intros Hc Hf. rewrite tell_body_unfold.
  destruct (tell_resolve ops ax_version_ge_0_3_5 self trial s) as [s1 r].
  by rewrite (tell_mark_other ops self trial s1 Hc Hf).
Qed.

(** X5.  When the attach of a trial without engine trial id raises in the
    first iteration of a call, no local variable is bound yet: for a
    completed trial the marking step raises [UnboundLocalError] on
    [trial_id], for a failed trial on [ax_trial], and that error replaces
    the one of the attach; nothing is marked. *)
Theorem tell_attach_failure_first_iteration self trial c c1 e :
  Trial.ax_trial_id trial = None →
  attach_trial ops (attach_params trial) c = (c1, Raise e) →
  (Trial.status trial = COMPLETED →
   _tell_body ops ax_version_ge_0_3_5 self trial (mkTell c None None)
   = (mkTell c1 None None, Raise (unbound "trial_id")))
  ∧ (Trial.status trial = FAILED →
     _tell_body ops ax_version_ge_0_3_5 self trial (mkTell c None None)
     = (mkTell c1 None None, Raise (unbound "ax_trial")))
  ∧ (Trial.status trial ≠ COMPLETED → Trial.status trial ≠ FAILED →
     _tell_body ops ax_version_ge_0_3_5 self trial (mkTell c None None)
     = (mkTell c1 None None, Raise e)).
Proof.
  intros Hid Hatt.
  assert (Hres : tell_resolve ops ax_version_ge_0_3_5 self trial (mkTell c None None)
                 = (mkTell c1 None None, Raise e)).
  { rewrite (tell_resolve_no_id _ _ _ _ _ Hid).
    by rewrite (tell_attach_fails ops _ _ _ (mkTell c None None) _ _ Hatt). }
  rewrite tell_body_unfold, Hres. split; [|split].
  - intros Hst. unfold tell_mark, Trial.completed, read_trial_id.
    rewrite Hst. py_unfold. by cbn.
  - intros Hst. unfold tell_mark, Trial.completed, Trial.failed, read_ax_trial.
    rewrite Hst. py_unfold. cbn. by destruct (_abandon_failed_trials self).
  - intros Hc Hf. by rewrite (tell_mark_other ops self trial _ Hc Hf).
Qed.

(** X6.  When the attach of a trial without engine trial id raises in a
    later iteration, the local variables still hold the engine trial of
    the previous iteration: a completed trial is then reported with
    [complete_trial] under the previous trial id, with its own outcome
    map, before the error of the attach (or of that call) is raised. *)
Theorem tell_attach_failure_uses_previous_id self trial s (i0 : Z) c1 e :
  trial_id s = Some i0 →
  Trial.ax_trial_id trial = None →
  attach_trial ops (attach_params trial) (tell_client s) = (c1, Raise e) →
  Trial.status trial = COMPLETED →
  _tell_body ops ax_version_ge_0_3_5 self trial s
  = match complete_trial ops i0 (outcome_evals c1 trial) c1 with
    | (c2, Ok _) => (mkTell c2 (Some i0) (ax_trial s), Raise e)
    | (c2, Raise e') => (mkTell c2 (Some i0) (ax_trial s), Raise e')
    end.
Proof.
  intros Hprev Hid Hatt Hst.
  rewrite tell_body_unfold, (tell_resolve_no_id _ _ _ _ _ Hid).
  rewrite (tell_attach_fails ops _ _ _ s _ _ Hatt), Hprev.
  rewrite (tell_mark_completed ops self trial
             (mkTell c1 (Some i0) (ax_trial s)) i0 Hst eq_refl).
  unfold tell_call. cbn.
  by destruct (complete_trial ops i0 _ c1) as [c2 [[]|e']].
Qed.

(** X7.  With Ax from 0.3.5 on, when the current Sobol step has no
    transition criterion, the reduction raises [IndexError] after it has
    decremented the trial count of the step, and does not ask the
    strategy to move on. *)
Theorem reduce_init_trials_without_criterion c :
  ax_version_ge_0_3_5 = true →
  model (current_step (generation_strategy c)) = SOBOL →
  transition_criteria (current_step (generation_strategy c)) = [] →
  reduce_init_trials ops ax_version_ge_0_3_5 c
  = (with_counters (num_trials (current_step (generation_strategy c)) - 1) [] c,
     Raise (mkExn IndexError "list index out of range")).
Proof.
  intros -> Hm Htc.
  destruct c as [[done [m n tcs0 spec] ahead cached] ocs x].
  cbn in Hm, Htc. by subst m tcs0.
Qed.

End TellMore.

(** The dict of the attach holds, for names that are not repeated, the
    value at the position of the name. *)
Lemma attach_fold_other (vars : list VaryingParameter.t) (vals : list pyval)
    (m0 : TParameterization) (n : string) :
  n ∉ map VaryingParameter.name vars →
  fold_left
    (fun params '(var, value) => <[VaryingParameter.name var := value]> params)
    (zip vars vals) m0 !! n
  = m0 !! n.
Proof.
  revert vals m0. induction vars as [|var vars IH]; intros vals m0 Hn; [done|].
  destruct vals as [|val vals]; [done|].
  cbn in Hn. apply not_elem_of_cons in Hn as [Hne Hn].
  cbn [zip zip_with fold_left]. rewrite IH by done.
  by rewrite lookup_insert_ne.
Qed.

(** X8.  The dict that [_tell] attaches maps the name of each parameter
    of the trial to the value at the same position of its value list
    (names being distinct), and holds no other name. *)
Theorem attach_params_lookup (trial : Trial.t) :
  NoDup (map VaryingParameter.name (Trial.varying_parameters trial)) →
  (∀ (k : nat) var v,
     Trial.varying_parameters trial !! k = Some var →
     Trial.parameter_values trial !! k = Some v →
     attach_params trial !! VaryingParameter.name var = Some v)
  ∧ (∀ n, n ∉ map VaryingParameter.name (Trial.varying_parameters trial) →
          attach_params trial !! n = None).
Proof.
  intros Hnd. unfold attach_params. split.
  - generalize (∅ : TParameterization) as m0.
    generalize dependent (Trial.parameter_values trial).
    induction (Trial.varying_parameters trial) as [|var0 vars IH];
      intros vals m0 k var v Hvar Hval; [done|].
    destruct vals as [|val vals]; [done|].
    apply NoDup_cons in Hnd as [Hfresh Hnd].
    cbn [zip zip_with fold_left]. destruct k as [|k].
    + cbn in Hvar, Hval. injection Hvar as ->. injection Hval as ->.
      rewrite attach_fold_other by done. by rewrite lookup_insert_eq.
    + by eapply IH.
  - intros n Hn. by rewrite attach_fold_other.
Qed.

Lemma attach_params_lookup_witness :
  attach_params Examples.external_trial !! "x1"%string = Some (PyFloat 2).
Proof.
  destruct (attach_params_lookup Examples.external_trial) as [Hin _].
  - cbn. apply NoDup_cons. split; [by intros [[=]|[]%elem_of_nil]%elem_of_cons|].
    apply NoDup_singleton.
  - apply (Hin 1%nat Examples.x1 (PyFloat 2)); reflexivity.
Defined.

(** An external trial, then a trial with an id unknown to the client, then
    another external trial: the call stops at the second. *)
Lemma tell_stops_at_first_failure_witness :
  let self := Examples.generator [Examples.x0; Examples.x1] in
  let c := RefClient.fresh_client true 4 in
  let s1 := (_tell_body RefClient.ops true self Examples.external_trial
               (mkTell c None None)).1 in
  let s2 := (_tell_body RefClient.ops true self Examples.stray_trial s1).1 in
  _tell RefClient.ops true self
    ([Examples.external_trial] ++ Examples.stray_trial :: [Examples.external_trial]) c
  = (tell_client s2, Raise (mkExn KeyError "trial index")).
Proof.
  intros self c s1 s2.
  apply (tell_stops_at_first_failure RefClient.ops true self
           [Examples.external_trial] [Examples.external_trial]
           Examples.stray_trial c s1 s2).
  - reflexivity.
  - reflexivity.
Defined.

Lemma tell_leaves_unevaluated_trial_unmarked_witness :
  let self := Examples.generator [Examples.x0; Examples.x1] in
  let s := mkTell (RefClient.fresh_client true 4) None None in
  _tell_body RefClient.ops true self Examples.pending_trial s
  = tell_resolve RefClient.ops true self Examples.pending_trial s.
Proof.
  intros self s.
  apply (tell_leaves_unevaluated_trial_unmarked RefClient.ops true self
           Examples.pending_trial s); discriminate.
Defined.

(** A completed external trial without any parameter, on a client that
    refuses empty parameterizations. *)
Lemma tell_attach_failure_first_iteration_witness :
  let self := Examples.generator [Examples.x0; Examples.x1] in
  let c := RefClient.fresh_client true 4 in
  _tell_body RefExtra.strict_ops true self (RefExtra.empty_trial COMPLETED)
    (mkTell c None None)
  = (mkTell c None None, Raise (unbound "trial_id")).
Proof.
  intros self c.
  destruct (tell_attach_failure_first_iteration RefExtra.strict_ops true self
              (RefExtra.empty_trial COMPLETED) c c
              (mkExn ValueError "parameterization is empty"))
    as (Hcompleted & _); [reflexivity|reflexivity|].
  apply Hcompleted. reflexivity.
Defined.

(** The same trial after an external trial was told: the engine trial 0
    of the first is the one that is reported. *)
Lemma tell_attach_failure_uses_previous_id_witness :
  let self := Examples.generator [Examples.x0; Examples.x1] in
  let s := (_tell_body RefExtra.strict_ops true self Examples.external_trial
              (mkTell (RefClient.fresh_client true 4) None None)).1 in
  let trial := RefExtra.empty_trial COMPLETED in
  _tell_body RefExtra.strict_ops true self trial s
  = match complete_trial RefExtra.strict_ops 0
            (outcome_evals (tell_client s) trial) (tell_client s) with
    | (c2, Ok _) =>
        (mkTell c2 (Some 0) (ax_trial s),
         Raise (mkExn ValueError "parameterization is empty"))
    | (c2, Raise e') => (mkTell c2 (Some 0) (ax_trial s), Raise e')
    end.
Proof.
  intros self s trial.
  apply (tell_attach_failure_uses_previous_id RefExtra.strict_ops true self
           trial s 0 (tell_client s)
           (mkExn ValueError "parameterization is empty")).
  - reflexivity.
  - reflexivity.
  - reflexivity.
  - reflexivity.
Defined.

Lemma reduce_init_trials_without_criterion_witness :
  let c : RefClient.Client :=
    mkClient (mkStrategy [] (mkStep SOBOL 4 [] (mkModelSpec None)) [] None)
      [] (RefClient.fresh_experiment true) in
  reduce_init_trials RefClient.ops true c
  = (with_counters 3 [] c, Raise (mkExn IndexError "list index out of range")).
Proof.
  intros c.
  apply (reduce_init_trials_without_criterion RefClient.ops true c);
    reflexivity.
Defined.

(** ** Further properties of the translator *)

Section TranslatorMore.

Import VaryingParameter.

Lemma create_ax_parameters_loop_inv vars parameters fixed_parameters ps fx :
  create_ax_parameters_loop vars parameters fixed_parameters = Ok (ps, fx) →
  ps = parameters ++ map range_spec vars
  ∧ fx = fold_left add_fixed vars fixed_parameters.
Proof.
  revert parameters fixed_parameters.
  induction vars as [|var vars IH]; intros parameters fixed_parameters.
  - cbn. intros [= <- <-]. by rewrite app_nil_r.
  - cbn [create_ax_parameters_loop].
    destruct (range_dtype (dtype var)) eqn:Hk.
    + rewrite (value_type_of_range _ Hk). intros Hloop.
      apply IH in Hloop as [-> ->]. cbn [map fold_left].
      by rewrite <- app_assoc.
    + by rewrite (value_type_of_other _ Hk).
Qed.

(** X9.  The translation is idempotent: run again on the generator it
    left, it returns the same specs and leaves the same fixed features,
    and it raises again when it raised; the fixed features stored before
    a run have no influence on it. *)
Theorem create_ax_parameters_idempotent (self : AxServiceGenerator)
    (ff : option (gmap string pyval)) :
  _create_ax_parameters (_create_ax_parameters self).1
  = _create_ax_parameters self
  ∧ (_create_ax_parameters (set_fixed_features ff self)).2
    = (_create_ax_parameters self).2
  ∧ (is_ok (_create_ax_parameters self).2 = true →
     _fixed_features (_create_ax_parameters (set_fixed_features ff self)).1
     = _fixed_features (_create_ax_parameters self).1).
Proof.
  unfold _create_ax_parameters. cbn.
  destruct (create_ax_parameters_loop (_varying_parameters self) [] ∅)
    as [[ps fx]|e] eqn:Hloop; cbn; rewrite Hloop; done.
Qed.

(** X10.  After a successful translation the fixed features hold a value
    under a name exactly when a varying parameter of that name is flagged
    fixed; without any fixed parameter they are an empty overlay, not
    [None]. *)
Theorem fixed_features_domain (self self' : AxServiceGenerator)
    (parameters : list AxParameter) :
  _create_ax_parameters self = (self', Ok parameters) →
  ∃ overlay,
    _fixed_features self' = Some overlay
    ∧ ∀ n, is_Some (overlay !! n)
           ↔ ∃ var, var ∈ _varying_parameters self
                    ∧ is_fixed var = true ∧ name var = n.
Proof.
  unfold _create_ax_parameters.
  destruct (create_ax_parameters_loop (_varying_parameters self) [] ∅)
    as [[ps fx]|e] eqn:Hloop; [|done].
  intros [= <- <-]. apply create_ax_parameters_loop_inv in Hloop as [_ ->].
  eexists. split; [reflexivity|]. intros n.
  rewrite fixed_overlay_lookup. unfold fixed_named.
  destruct (last _) as [var|] eqn:Hlast; cbn.
  - split; [intros _|by eexists].
    apply last_Some_elem_of, list_elem_of_filter in Hlast as [[Hf Hn] Hin].
    by exists var.
  - split; [by intros [? ?]|]. intros (var & Hin & Hf & Hn).
    apply last_None in Hlast.
    assert (var ∈ filter (fun var => is_fixed var = true ∧ name var = n)
                    (_varying_parameters self)) as Hmem
      by (by apply list_elem_of_filter).
    rewrite Hlast in Hmem. by apply elem_of_nil in Hmem.
Qed.

End TranslatorMore.

Lemma fixed_features_domain_witness :
  let self := Examples.generator
    [Examples.x0; Examples.fixed_int_parameter "n" 1 9 4] in
  ∃ overlay,
    _fixed_features (_create_ax_parameters self).1 = Some overlay
    ∧ ∀ n, is_Some (overlay !! n)
           ↔ ∃ var, var ∈ _varying_parameters self
                    ∧ VaryingParameter.is_fixed var = true
                    ∧ VaryingParameter.name var = n.
Proof.
  intros self.
  apply (fixed_features_domain self (_create_ax_parameters self).1
           (map range_spec (_varying_parameters self))).
  reflexivity.
Defined.

(** ** Further properties of the best-value selector *)

Lemma prefix_app (s t : string) : String.prefix s (s +:+ t) = true.
Proof.
  induction s as [|a s IH]; [by destruct t|].
  change (String a s +:+ t) with (String a (s +:+ t)).
  cbn [String.prefix]. by destruct (ascii_dec a a).
Qed.

Lemma mentions_app (needle before after : string) :
  mentions needle (before +:+ needle +:+ after) = true.
Proof.
  induction before as [|a before IH].
  - change ("" +:+ needle +:+ after) with (needle +:+ after).
    destruct (needle +:+ after) eqn:E.
    + cbn [mentions]. rewrite <- E. by rewrite prefix_app.
    + cbn [mentions]. rewrite <- E. by rewrite prefix_app.
  - change (String a before +:+ needle +:+ after)
      with (String a (before +:+ needle +:+ after)).
    cbn [mentions]. rewrite IH. by destruct (String.prefix _ _).
Qed.

Section SelectorMore.

Context {F X H : Type}.
Variable ops : AxClientOps F X H.

Implicit Type self : AxServiceGenerator.
Implicit Type c : AxClient F X.

(** X11.  A query for a name that is not the name of an objective raises
    a [ValueError] whose message mentions the requested name; the client
    is not consulted and is left as it was. *)
Theorem best_values_unknown_name self (name : string) c :
  name ∉ map Objective.name (objectives self) →
  ∃ msg,
    _get_best_values ops self name c = (c, Raise (mkExn ValueError msg))
    ∧ mentions name msg = true.
Proof.
  intros Hin. apply list_index_None in Hin.
  unfold _get_best_values. rewrite Hin. eexists. split; [reflexivity|].
  apply (mentions_app name "Objective ").
Qed.

(** X12.  With at most one objective, a query for its name is the query
    of the best point of the client: it returns the parameter values of
    that point, [None] when the client has none, and passes on what the
    client raises. *)
Theorem best_values_single_objective_is_best_point self (name : string) c :
  name ∈ map Objective.name (objectives self) →
  (length (objectives self) ≤ 1)%nat →
  _get_best_values ops self name c
  = match get_best_parameters ops c with
    | (c', Ok best) => (c', Ok (fst <$> best))
    | (c', Raise e) => (c', Raise e)
    end.
Proof.
  intros Hin Hone.
  destruct (get_best_parameters ops c) as [c' [best|e]] eqn:Hbest.
  - by apply best_values_single_objective.
  - unfold _get_best_values.
    destruct (list_index name _) as [i|] eqn:Hi; [|by apply list_index_None in Hi].
    destruct (requested_objective _ _ _ Hi) as (objective & -> & _).
    destruct (Nat.ltb_spec 1 (length (objectives self))) as [|_]; [lia|].
    py_unfold. by rewrite Hbest.
Qed.

(** X13.  With several objectives, a point of the Pareto set that has no
    value for the requested objective makes the query raise a [KeyError]
    on the name of the objective. *)
Theorem best_values_missing_objective_value self (name : string) c c'
    (pp : list (Z * (TParameterization * TModelPredictArm))) :
  name ∈ map Objective.name (objectives self) →
  (1 < length (objectives self))%nat →
  get_pareto_optimal_parameters ops c = (c', Ok pp) →
  Exists (fun item => item.2.2.1 !! name = None) pp →
  _get_best_values ops self name c = (c', Raise (mkExn KeyError name)).
Proof.
  intros Hin Hmany Hpp Hex. unfold _get_best_values.
  destruct (list_index name _) as [i|] eqn:Hi; [|by apply list_index_None in Hi].
  destruct (requested_objective _ _ _ Hi) as (objective & -> & Hname).
  destruct (Nat.ltb_spec 1 (length (objectives self))) as [_|]; [|lia].
  py_unfold. rewrite Hpp. unfold lift_result. rewrite Hname.
  by rewrite (pareto_objective_values_missing name pp Hex).
Qed.

End SelectorMore.

Lemma best_values_unknown_name_witness :
  let c := RefClient.fresh_client true 4 in
  ∃ msg,
    _get_best_values RefClient.ops Examples.generator_moo "h" c
    = (c, Raise (mkExn ValueError msg))
    ∧ mentions "h" msg = true.
Proof.
  intros c.
  apply (best_values_unknown_name RefClient.ops Examples.generator_moo "h" c).
  cbn. intros [[=]|[[=]|[]%elem_of_nil]%elem_of_cons]%elem_of_cons.
Defined.

Lemma best_values_single_objective_is_best_point_witness :
  let self := Examples.generator [Examples.x0] in
  let c := RefClient.fresh_client true 4 in
  _get_best_values RefClient.ops self "f" c
  = match get_best_parameters RefClient.ops c with
    | (c', Ok best) => (c', Ok (fst <$> best))
    | (c', Raise e) => (c', Raise e)
    end.
Proof.
  intros self c.
  apply (best_values_single_objective_is_best_point RefClient.ops self "f" c).
  - cbn. apply list_elem_of_here.
  - cbn. lia.
Defined.

(** A front whose second point has no prediction for [f]. *)
Lemma best_values_missing_objective_value_witness :
  let front := [Examples.pareto_point 0 (1 # 10) 5 1;
                (1, ({[ "x0" := PyFloat (2 # 10) ]}, ({[ "g" := 3%Q ]}, ∅)))] in
  let c := Examples.with_front front (RefClient.fresh_client true 4) in
  _get_best_values RefClient.ops Examples.generator_moo "f" c
  = (c, Raise (mkExn KeyError "f")).
Proof.
  intros front c.
  apply (best_values_missing_objective_value RefClient.ops
           Examples.generator_moo "f" c c front).
  - cbn. apply list_elem_of_here.
  - cbn. lia.
  - reflexivity.
  - apply Exists_cons_tl, Exists_cons_hd. reflexivity.
Defined.

(** ** The objectives handed to the client *)

Lemma objectives_fold_other (objs : list Objective.t)
    (m0 : gmap string ObjectiveProperties) (n : string) :
  n ∉ map Objective.name objs →
  fold_left
    (fun objectives obj =>
       <[Objective.name obj := mkObjectiveProperties (Objective.minimize obj)]>
         objectives) objs m0 !! n
  = m0 !! n.
Proof.
  revert m0. induction objs as [|obj objs IH]; intros m0 Hn; [done|].
  cbn in Hn. apply not_elem_of_cons in Hn as [Hne Hn].
  cbn [fold_left]. rewrite IH by done. by rewrite lookup_insert_ne.
Qed.

(** X14.  [_create_ax_objectives] registers every objective under its
    name with its own direction, and nothing else (names being distinct).
    The direction registered under a name is then the one that
    [_get_best_values] follows for that name. *)
Theorem create_ax_objectives_lookup (self : AxServiceGenerator) :
  NoDup (map Objective.name (objectives self)) →
  (∀ obj, obj ∈ objectives self →
     _create_ax_objectives self !! Objective.name obj
     = Some (mkObjectiveProperties (Objective.minimize obj)))
  ∧ (∀ n, n ∉ map Objective.name (objectives self) →
          _create_ax_objectives self !! n = None)
  ∧ (∀ (name : string) (i : nat) obj,
       list_index name (map Objective.name (objectives self)) = Some i →
       objectives self !! i = Some obj →
       _create_ax_objectives self !! name
       = Some (mkObjectiveProperties (Objective.minimize obj))).
Proof.
  intros Hnd. unfold _create_ax_objectives.
  assert (Hin : ∀ obj, obj ∈ objectives self →
    fold_left
      (fun objectives obj =>
         <[Objective.name obj := mkObjectiveProperties (Objective.minimize obj)]>
           objectives) (objectives self)
      (∅ : gmap string ObjectiveProperties) !! Objective.name obj
    = Some (mkObjectiveProperties (Objective.minimize obj))).
  { generalize (∅ : gmap string ObjectiveProperties) as m0.
    induction (objectives self) as [|obj0 objs IH]; intros m0 obj Hobj.
    - by apply elem_of_nil in Hobj.
    - cbn in Hnd. apply NoDup_cons in Hnd as [Hfresh Hnd].
      cbn [fold_left]. apply elem_of_cons in Hobj as [->|Hobj].
      + rewrite objectives_fold_other by done. by rewrite lookup_insert_eq.
      + by apply IH. }
  split; [done|]. split.
  - intros n Hn. by rewrite objectives_fold_other.
  - intros name i obj Hi Hobj.
    apply list_index_Some in Hi. rewrite list_lookup_fmap, Hobj in Hi.
    injection Hi as <-. apply Hin. by eapply list_elem_of_lookup_2.
Qed.

Lemma create_ax_objectives_lookup_witness :
  _create_ax_objectives Examples.generator_moo !! "g"%string
  = Some (mkObjectiveProperties false).
Proof.
  destruct (create_ax_objectives_lookup Examples.generator_moo) as (Hin & _).
  - cbn. apply NoDup_cons.
    split; [by intros [[=]|[]%elem_of_nil]%elem_of_cons|].
    apply NoDup_singleton.
  - apply (Hin (Objective.mk "g" false)).
    cbn. apply list_elem_of_further, list_elem_of_here.
Defined.

(** ** Further properties of the serialization guard *)

Section GuardMore.

Context {F X : Type}.

Implicit Type c : AxClient F X.

(** X15.  [_prepare_to_send] never raises and is idempotent.  It changes
    nothing but the two model references: the steps left behind and
    ahead, the model kind, trial count and criteria of the current step,
    the outcome constraints and the experiment are as before.  It is
    keyed on the cached model of the strategy alone: when that is [None]
    the client is left as it is, fitted model of the current step
    included. *)
Theorem prepare_to_send_idempotent c :
  ∃ c',
    _prepare_to_send c = (c', Ok tt)
    ∧ _prepare_to_send c' = (c', Ok tt)
    ∧ _steps_done (generation_strategy c') = _steps_done (generation_strategy c)
    ∧ _steps_ahead (generation_strategy c') = _steps_ahead (generation_strategy c)
    ∧ model (_curr (generation_strategy c')) = model (_curr (generation_strategy c))
    ∧ num_trials (_curr (generation_strategy c'))
      = num_trials (_curr (generation_strategy c))
    ∧ transition_criteria (_curr (generation_strategy c'))
      = transition_criteria (_curr (generation_strategy c))
    ∧ outcome_constraints c' = outcome_constraints c
    ∧ experiment_state c' = experiment_state c
    ∧ (_model (generation_strategy c) = None → c' = c).
Proof.
  destruct c as [[done [md n tcs spec] ahead [cached|]] ocs x].
  - eexists. split; [reflexivity|]. by cbn.
  - eexists. split; [reflexivity|]. by cbn.
Qed.

End GuardMore.

(** ** The file of a saved model *)

Lemma string_length_app (s t : string) :
  String.length (s +:+ t) = (String.length s + String.length t)%nat.
Proof.
  induction s as [|a s IH]; [done|].
  change (String a s +:+ t) with (String a (s +:+ t)). cbn. by rewrite IH.
Qed.

Lemma string_app_inj_r (s x y : string) : x +:+ s = y +:+ s → x = y.
Proof.
  revert y. induction x as [|a x IH]; intros [|b y] Heq; [done| | |].
  - apply (f_equal String.length) in Heq.
    change ("" +:+ s) with s in Heq. rewrite string_length_app in Heq.
    cbn in Heq. lia.
  - apply (f_equal String.length) in Heq.
    change ("" +:+ s) with s in Heq. rewrite string_length_app in Heq.
    cbn in Heq. lia.
  - change (String a x +:+ s) with (String a (x +:+ s)) in Heq.
    change (String b y +:+ s) with (String b (y +:+ s)) in Heq.
    injection Heq as -> Heq. f_equal. by apply IH.
Qed.

Lemma format_int_inj (n m : Z) : format_int n = format_int m → n = m.
Proof.
  unfold format_int. intros Heq.
  assert (Hnorm : ∀ z, Z.to_int z ≠ Decimal.Pos Decimal.Nil
                       ∧ Z.to_int z ≠ Decimal.Neg Decimal.Nil).
  { intros [|p|p]; cbn; split; try done;
      intros [= Hp]; by apply DecimalPos.Unsigned.to_uint_nonnil in Hp. }
  apply (f_equal DecimalString.NilZero.int_of_string) in Heq.
  destruct (Hnorm n) as [Hn1 Hn2]. destruct (Hnorm m) as [Hm1 Hm2].
  rewrite !DecimalString.NilZero.isi in Heq by done.
  injection Heq as Heq. by apply DecimalZ.to_int_inj.
Qed.

(** X17.  The file that [_save_model_to_file] writes lies under the model
    history directory, and two different numbers of evaluated trials give
    two different files of the same directory: a saved model is not
    overwritten by a later one. *)
Theorem model_file_path_distinct (a b : GeneratorAttributes) :
  String.prefix (_model_history_dir a) (model_file_path a) = true
  ∧ (_model_history_dir a = _model_history_dir b →
     _n_evaluated_trials_last_saved a ≠ _n_evaluated_trials_last_saved b →
     model_file_path a ≠ model_file_path b).
Proof.
  assert (Hjoin : ∀ dir fmt,
    os_path_join dir ("ax_client_at_eval_" +:+ fmt +:+ ".json")
    = if String.eqb dir "" || ends_with_slash dir
      then dir +:+ "ax_client_at_eval_" +:+ fmt +:+ ".json"
      else dir +:+ "/" +:+ "ax_client_at_eval_" +:+ fmt +:+ ".json").
  { intros dir fmt. unfold os_path_join.
    change ("ax_client_at_eval_" +:+ fmt +:+ ".json")
      with (String "a" ("x_client_at_eval_" +:+ fmt +:+ ".json")).
    cbn [String.prefix]. by destruct (ascii_dec "/" "a"). }
  unfold model_file_path. rewrite !Hjoin. split.
  - destruct (_ || _); apply prefix_app.
  - intros Hdir Hn Hpath. apply Hn. rewrite Hdir in Hpath.
    apply format_int_inj, (string_app_inj_r ".json").
    destruct (_ || _).
    + by do 2 apply String.app_inj in Hpath.
    + by do 3 apply String.app_inj in Hpath.
Qed.

Lemma model_file_path_distinct_witness :
  model_file_path (RefExtra.attributes "model_history" 5)
  ≠ model_file_path (RefExtra.attributes "model_history" 10).
Proof.
  destruct (model_file_path_distinct
              (RefExtra.attributes "model_history" 5)
              (RefExtra.attributes "model_history" 10)) as [_ Hdistinct].
  apply Hdistinct; [reflexivity|discriminate].
Defined.

(** ** The other methods that talk to the client *)

Section MoreMethodsFacts.

Context {F X H P : Type}.
Variable ops : AxClientOps F X H.
Variable xops : AxExtraOps F X H P.

Implicit Type self : AxServiceGenerator.
Implicit Type attrs : GeneratorAttributes.
Implicit Type trial : Trial.t.
Implicit Type c : AxClient F X.

(** X16.  [_mark_trial_as_failed] has no attach fallback: for a trial
    without engine trial id it raises [AttributeError] and leaves the
    client untouched; when the fetch by id raises, the error is passed on
    and nothing is marked; otherwise the engine trial is marked abandoned
    when [abandon_failed_trials] is set and failed otherwise. *)
Theorem mark_trial_as_failed_cases self trial c :
  (Trial.ax_trial_id trial = None →
   ∃ e, exn_class e = AttributeError
        ∧ _mark_trial_as_failed ops xops self trial c = (c, Raise e))
  ∧ (∀ (i : Z) c1 e,
       Trial.ax_trial_id trial = Some i →
       get_trial ops i c = (c1, Raise e) →
       _mark_trial_as_failed ops xops self trial c = (c1, Raise e))
  ∧ (∀ (i : Z) c1 (h : H),
       Trial.ax_trial_id trial = Some i →
       get_trial ops i c = (c1, Ok h) →
       _mark_trial_as_failed ops xops self trial c
       = (if _abandon_failed_trials self
          then mark_abandoned_unsafe xops h
          else mark_failed_unsafe xops h) c1).
Proof.
  unfold _mark_trial_as_failed, getattr_ax_trial_id. split; [|split].
  - intros ->. py_unfold. eexists. split; [|reflexivity]. reflexivity.
  - intros i c1 e -> Hget. py_unfold. by rewrite Hget.
  - intros i c1 h -> Hget. py_unfold. rewrite Hget.
    by destruct (_abandon_failed_trials self).
Qed.

(** X18.  [_update_parameter] re-derives the specs of all the varying
    parameters of the generator.  When one of them has a dtype that is
    neither float nor int it raises the [ValueError] of the translator,
    and neither the generator nor the client changes.  Otherwise the
    fixed features are renewed, and the spec built for the name of the
    argument is pushed into the search space of the client; when the
    search space has no parameter of that name a [KeyError] is raised,
    the fixed features having been renewed all the same.  Of the
    argument, only the name is used. *)
Theorem update_parameter_cases self c (parameter : VaryingParameter.t) :
  (Exists (fun var => range_dtype (VaryingParameter.dtype var) = false)
     (_varying_parameters self) →
   _update_parameter xops parameter (self, c)
   = ((self, c), Raise (mkExn ValueError dtype_error_message)))
  ∧ (∀ space,
       Forall (fun var => range_dtype (VaryingParameter.dtype var) = true)
         (_varying_parameters self) →
       make_search_space xops (map range_spec (_varying_parameters self))
       = Ok space →
       let self' :=
         set_fixed_features
           (Some (fold_left add_fixed (_varying_parameters self) ∅)) self in
       _update_parameter xops parameter (self, c)
       = match space !! VaryingParameter.name parameter with
         | Some p =>
             match update_parameter xops p c with
             | (c', r) => ((self', c'), r)
             end
         | None =>
             ((self', c),
              Raise (mkExn KeyError (VaryingParameter.name parameter)))
         end)
  ∧ (∀ other : VaryingParameter.t,
       VaryingParameter.name other = VaryingParameter.name parameter →
       _update_parameter xops other (self, c)
       = _update_parameter xops parameter (self, c)).
Proof.
  split; [|split].
  - intros Hex.
    unfold _update_parameter, on_self, on_client, _create_ax_parameters,
      lift_result.
    py_unfold. cbn.
    by rewrite (create_ax_parameters_loop_bad _ [] ∅ Hex).
  - intros space Hall Hspace self'.
    unfold _update_parameter, on_self, on_client, _create_ax_parameters,
      lift_result.
    py_unfold. cbn.
    rewrite (create_ax_parameters_loop_ok _ [] ∅ Hall). cbn.
    rewrite Hspace. by destruct (space !! _).
  - intros other Hname. unfold _update_parameter. by rewrite Hname.
Qed.

(** X19.  [_create_ax_client] with the [_create_generation_steps] of this
    class raises [NotImplementedError] before anything is built.  With
    steps and a client at hand, a varying parameter of a dtype that is
    neither float nor int makes it raise the [ValueError] of the
    translator, and no experiment is created; otherwise the experiment is
    created with one range spec per varying parameter, the objectives by
    name and the two lists of constraints, and the generator is left with
    its fixed features set. *)
Theorem create_ax_client_cases self attrs
    (create_generation_steps : BoModelKwargs → result (list (GenerationStep F))) :
  _create_ax_client xops _create_generation_steps attrs self
  = (self, Raise (mkExn NotImplementedError ""))
  ∧ ∀ steps c0,
      create_generation_steps
        (mkBoModelKwargs "double" (torch_device attrs) (_fit_out_of_design attrs))
      = Ok steps →
      new_ax_client xops steps = Ok c0 →
      (Exists (fun var => range_dtype (VaryingParameter.dtype var) = false)
         (_varying_parameters self) →
       _create_ax_client xops create_generation_steps attrs self
       = (self, Raise (mkExn ValueError dtype_error_message)))
      ∧ (Forall (fun var => range_dtype (VaryingParameter.dtype var) = true)
           (_varying_parameters self) →
         let self' :=
           set_fixed_features
             (Some (fold_left add_fixed (_varying_parameters self) ∅)) self in
         _create_ax_client xops create_generation_steps attrs self
         = match create_experiment xops
                   (map range_spec (_varying_parameters self))
                   (_create_ax_objectives self)
                   (_outcome_constraints attrs) (_parameter_constraints attrs)
                   c0 with
           | (c1, Ok _) => (self', Ok c1)
           | (_, Raise e) => (self', Raise e)
           end).
Proof.
  split; [done|]. intros steps c0 Hsteps Hclient. split.
  - intros Hex.
    unfold _create_ax_client, _create_ax_parameters, lift_result.
    py_unfold. rewrite Hsteps, Hclient.
    by rewrite (create_ax_parameters_loop_bad _ [] ∅ Hex).
  - intros Hall self'.
    unfold _create_ax_client, _create_ax_parameters, lift_result.
    py_unfold. rewrite Hsteps, Hclient.
    rewrite (create_ax_parameters_loop_ok _ [] ∅ Hall). cbn.
    by destruct (create_experiment xops _ _ _ _ c0) as [c1 [[]|e]].
Qed.

(** X20.  [plot_contour] refuses a generator with fewer than two varying
    parameters with a [ValueError], whatever its arguments, before the
    model is fitted: the client is left as it was. *)
Theorem plot_contour_needs_two_parameters self c
    (param_x param_y objective : option string)
    (slice_values : option TParameterization) :
  (length (_varying_parameters self) < 2)%nat →
  ∃ msg,
    plot_contour ops xops self param_x param_y objective slice_values c
    = (c, Raise (mkExn ValueError msg)).
Proof.
  intros Hlen. unfold plot_contour.
  destruct (Nat.ltb_spec (length (_varying_parameters self)) 2) as [_|]; [|lia].
  by eexists.
Qed.

(** X21.  [plot_slice] without arguments on a generator with one
    objective slices along the first varying parameter, for the
    objective, at the best point of the client fitted just before (or at
    no point when the client has none): the default objective is always
    a known one.  When the slice values are given, with the two names,
    the best values are not asked for. *)
Theorem plot_slice_defaults self c :
  (∀ var vars obj c1 c2 best,
     _varying_parameters self = var :: vars →
     objectives self = [obj] →
     fit_model xops c = (c1, Ok tt) →
     get_best_parameters ops c1 = (c2, Ok best) →
     plot_slice ops xops self None None None c
     = (c2, Ok (mkSliceCall (_model (generation_strategy c2))
                  (VaryingParameter.name var) (Objective.name obj)
                  (fst <$> best))))
  ∧ (∀ (param objective : string) (values : TParameterization),
       plot_slice ops xops self (Some param) (Some objective) (Some values) c
       = match fit_model xops c with
         | (c1, Ok _) =>
             (c1, Ok (mkSliceCall (_model (generation_strategy c1))
                        param objective (Some values)))
         | (c1, Raise e) => (c1, Raise e)
         end).
Proof.
  split.
  - intros var vars obj c1 c2 best Hvars Hobjs Hfit Hbest.
    assert (Hsel : _get_best_values ops self (Objective.name obj) c1
                   = (c2, Ok (fst <$> best))).
    { apply best_values_single_objective; [| |done].
      - rewrite Hobjs. cbn. apply list_elem_of_here.
      - rewrite Hobjs. cbn. lia. }
    unfold plot_slice, default_name, default_slice_values.
    rewrite Hvars, Hobjs. py_unfold. cbn. rewrite Hfit, Hsel. done.
  - intros param objective values.
    unfold plot_slice, default_name, default_slice_values. py_unfold.
    by destruct (fit_model xops c) as [c1 [[]|e]].
Qed.

End MoreMethodsFacts.

Lemma mark_trial_as_failed_cases_witness :
  let self := Examples.generator [Examples.x0; Examples.x1] in
  let c := RefClient.fresh_client true 4 in
  ∃ e, exn_class e = AttributeError
       ∧ _mark_trial_as_failed RefClient.ops RefExtra.xops self
           Examples.external_trial c = (c, Raise e).
Proof.
  intros self c.
  destruct (mark_trial_as_failed_cases RefClient.ops RefExtra.xops self
              Examples.external_trial c) as (Hnone & _).
  apply Hnone. reflexivity.
Defined.

(** The bounds of [x1] are updated in the search space of the reference
    client. *)
Lemma update_parameter_cases_witness :
  let self := Examples.generator [Examples.x0; Examples.x1] in
  let c := RefClient.fresh_client true 4 in
  let self' :=
    set_fixed_features
      (Some (fold_left add_fixed (_varying_parameters self) ∅)) self in
  _update_parameter RefExtra.xops Examples.x1 (self, c) = ((self', c), Ok tt).
Proof.
  intros self c self'.
  destruct (update_parameter_cases RefExtra.xops self c Examples.x1)
    as (_ & Hok & _).
  assert (Hall : Forall
            (fun var => range_dtype (VaryingParameter.dtype var) = true)
            (_varying_parameters self)) by (repeat constructor).
  exact (Hok _ Hall eq_refl).
Defined.

(** A subclass with a Sobol step and a model step. *)
Lemma create_ax_client_cases_witness :
  let self := Examples.generator
    [Examples.x0; Examples.fixed_int_parameter "n" 1 9 4] in
  let attrs := RefExtra.attributes "model_history" 0 in
  let self' :=
    set_fixed_features
      (Some (fold_left add_fixed (_varying_parameters self) ∅)) self in
  _create_ax_client RefExtra.xops (RefExtra.sobol_then_model 4) attrs self
  = (self', Ok (RefClient.fresh_client true 4)).
Proof.
  intros self attrs self'.
  destruct (create_ax_client_cases RefExtra.xops self attrs
              (RefExtra.sobol_then_model 4)) as [_ Hbuilt].
  destruct (Hbuilt [RefClient.sobol_step 4; RefClient.model_step]
              (RefClient.fresh_client true 4) eq_refl eq_refl) as [_ Hok].
  apply Hok. repeat constructor.
Defined.

Lemma plot_contour_needs_two_parameters_witness :
  let self := Examples.generator [Examples.x0] in
  let c := RefClient.fresh_client true 4 in
  ∃ msg,
    plot_contour RefClient.ops RefExtra.xops self None None None None c
    = (c, Raise (mkExn ValueError msg)).
Proof.
  intros self c.
  apply (plot_contour_needs_two_parameters RefClient.ops RefExtra.xops self c).
  cbn. lia.
Defined.

(** No trial has been completed: the slice is requested at no point. *)
Lemma plot_slice_defaults_witness :
  let self := Examples.generator [Examples.x0; Examples.x1] in
  let c := RefClient.fresh_client true 4 in
  let c1 := (fit_model RefExtra.xops c).1 in
  plot_slice RefClient.ops RefExtra.xops self None None None c
  = (c1, Ok (mkSliceCall (Some tt) "x0" "f" None)).
Proof.
  intros self c c1.
  destruct (plot_slice_defaults RefClient.ops RefExtra.xops self c)
    as [Hdefault _].
  apply (Hdefault Examples.x0 [Examples.x1] (Objective.mk "f" true) c1 c1 None);
    reflexivity.
Defined.

(** The translation run after fixed features of an earlier search space
    were stored. *)
Lemma create_ax_parameters_idempotent_witness :
  let self := Examples.generator
    [Examples.x0; Examples.fixed_int_parameter "n" 1 9 4] in
  let stale := Some ({[ "x0"%string := PyFloat 1 ]} : gmap string pyval) in
  _fixed_features (_create_ax_parameters (set_fixed_features stale self)).1
  = _fixed_features (_create_ax_parameters self).1.
Proof.
  intros self stale.
  destruct (create_ax_parameters_idempotent self stale) as (_ & _ & Hsame).
  apply Hsame. reflexivity.
Defined.

(** A client whose strategy caches no model while its current step still
    holds a fitted one: the guard leaves it as it is. *)
Lemma prepare_to_send_idempotent_witness :
  let c : AxClient nat RefClient.Experiment :=
    mkClient
      (mkStrategy [] (mkStep (MODEL "GPEI") (-1) [] (mkModelSpec (Some 17%nat)))
         [] None)
      [] (RefClient.fresh_experiment true) in
  _prepare_to_send c = (c, Ok tt).
Proof.
  intros c.
  destruct (prepare_to_send_idempotent c)
    as (c' & -> & _ & _ & _ & _ & _ & _ & _ & _ & Hsame).
  by rewrite Hsame.
Defined.
